(** * Lorcana card shop: the cart store and its pricing rules

    A shallow embedding of [lorcana/src/context/CartContext.jsx], and of
    what the cart page ([Cart.jsx]) and the card grid ([CardItem],
    [DisplayCard]) compute around it.

    - JavaScript numbers that carry money are exact rationals ([Q]); a
      quantity is an integer ([Z]); identifiers and display texts are
      strings.
    - The React state of [CartProvider] is one record, [Store]; a state
      setter followed by the effect that depends on it is one function on
      that record.
    - The browser's [localStorage] entry under the key ['lorcanaCart'] is a
      field of the same record.  Its text is kept as the sequence of JSON
      lexemes it consists of, so that the formatting of number and string
      literals (ECMAScript's own) stays out of the model while absent,
      empty, ill-formed and well-formed records remain distinct. *)

From Stdlib Require Import ZArith QArith List String Bool Lia Lqa.
Import ListNotations.

Set Warnings "-register-all".
Local Open Scope string_scope.
Local Open Scope list_scope.
Local Open Scope Z_scope.

(** ** JavaScript values used by the store *)

(** Truthiness of a number: zero is falsy. *)
Definition truthy (q : Q) : bool := negb (Qeq_bool q 0).

(** [x || d] for a numeric property [x] that may be missing. *)
Definition or_else (x : option Q) (d : Q) : Q :=
  match x with
  | Some q => if truthy q then q else d
  | None => d
  end.

(** ** Data model *)

(** A catalog item as the catalog service returns it. *)
Record Card := {
  _id : string;
  Name : string;
  Image : string;
  Price : option Q
}.

(** An entry of [cartItems]. *)
Record LineItem := {
  id : string;
  name : string;
  image : string;
  price : Q;
  quantity : Z;
  premiumPackaging : bool
}.

(** [{ ...item, quantity: q }] *)
Definition with_quantity (item : LineItem) (q : Z) : LineItem :=
  {| id := id item; name := name item; image := image item;
     price := price item; quantity := q;
     premiumPackaging := premiumPackaging item |}.

(** [{ ...item, premiumPackaging: b }] *)
Definition with_premiumPackaging (item : LineItem) (b : bool) : LineItem :=
  {| id := id item; name := name item; image := image item;
     price := price item; quantity := quantity item;
     premiumPackaging := b |}.

(** ** JSON, as far as the durable record needs it *)

(** The lexemes of a text.  [TSpace] is a run of white space, [TInvalid]
    any run of characters that is no JSON lexeme. *)
Inductive token :=
| TLBracket | TRBracket | TLBrace | TRBrace | TColon | TComma
| TString (s : string)
| TNumber (q : Q)
| TTrue | TFalse | TNull
| TSpace
| TInvalid.

(** The text of a record: the empty list is the empty string. *)
Definition text := list token.

Inductive json :=
| JNull
| JBool (b : bool)
| JNumber (q : Q)
| JString (s : string)
| JArray (l : list json)
| JObject (l : list (string * json)).

(** The pieces of an array or an object, separated by commas. *)
Fixpoint join (sep : token) (pieces : list text) : text :=
  match pieces with
  | [] => []
  | [piece] => piece
  | piece :: pieces' => piece ++ sep :: join sep pieces'
  end.

(** [JSON.stringify] without indentation. *)
Fixpoint stringify (j : json) : text :=
  match j with
  | JNull => [TNull]
  | JBool b => [if b then TTrue else TFalse]
  | JNumber q => [TNumber q]
  | JString s => [TString s]
  | JArray l => TLBracket :: join TComma (map stringify l) ++ [TRBracket]
  | JObject l =>
      TLBrace ::
      join TComma
        (map (fun kv => let '(k, v) := kv in
                        TString k :: TColon :: stringify v) l)
      ++ [TRBrace]
  end.

Fixpoint skip_space (ts : text) : text :=
  match ts with
  | TSpace :: ts' => skip_space ts'
  | _ => ts
  end.

(** Defining a property on an object under construction: an existing key
    keeps its place and takes the new value, a new key goes last. *)
Fixpoint set_member (k : string) (v : json) (o : list (string * json))
  : list (string * json) :=
  match o with
  | [] => [(k, v)]
  | (k', v') :: o' =>
      if String.eqb k' k then (k', v) :: o' else (k', v') :: set_member k v o'
  end.

Definition object_of (kvs : list (string * json)) : json :=
  JObject (fold_left (fun o kv => set_member (fst kv) (snd kv) o) kvs []).

(** Recursive descent over the lexemes.  Every call spends one unit of
    [fuel]; [JSON_parse] below supplies more than any text can use. *)
Fixpoint parse_value (fuel : nat) (ts : text) : option (json * text) :=
  match fuel with
  | O => None
  | S fuel' =>
      match skip_space ts with
      | TNull :: r => Some (JNull, r)
      | TTrue :: r => Some (JBool true, r)
      | TFalse :: r => Some (JBool false, r)
      | TNumber q :: r => Some (JNumber q, r)
      | TString s :: r => Some (JString s, r)
      | TLBracket :: r =>
          match skip_space r with
          | TRBracket :: r' => Some (JArray [], r')
          | _ =>
              match parse_elements fuel' r with
              | Some (vs, r') => Some (JArray vs, r')
              | None => None
              end
          end
      | TLBrace :: r =>
          match skip_space r with
          | TRBrace :: r' => Some (JObject [], r')
          | _ =>
              match parse_members fuel' r with
              | Some (kvs, r') => Some (object_of kvs, r')
              | None => None
              end
          end
      | _ => None
      end
  end
with parse_elements (fuel : nat) (ts : text) : option (list json * text) :=
  match fuel with
  | O => None
  | S fuel' =>
      match parse_value fuel' ts with
      | Some (v, r) =>
          match skip_space r with
          | TRBracket :: r' => Some ([v], r')
          | TComma :: r' =>
              match parse_elements fuel' r' with
              | Some (vs, r'') => Some (v :: vs, r'')
              | None => None
              end
          | _ => None
          end
      | None => None
      end
  end
with parse_members (fuel : nat) (ts : text)
  : option (list (string * json) * text) :=
  match fuel with
  | O => None
  | S fuel' =>
      match skip_space ts with
      | TString k :: r =>
          match skip_space r with
          | TColon :: r' =>
              match parse_value fuel' r' with
              | Some (v, r'') =>
                  match skip_space r'' with
                  | TRBrace :: r3 => Some ([(k, v)], r3)
                  | TComma :: r3 =>
                      match parse_members fuel' r3 with
                      | Some (kvs, r4) => Some ((k, v) :: kvs, r4)
                      | None => None
                      end
                  | _ => None
                  end
              | None => None
              end
          | _ => None
          end
      | _ => None
      end
  end.

(** [JSON.parse]: one value, then nothing but white space.  [None] is the
    [SyntaxError]. *)
Definition JSON_parse (ts : text) : option json :=
  match parse_value (2 * List.length ts + 2) ts with
  | Some (v, r) =>
      match skip_space r with
      | [] => Some v
      | _ :: _ => None
      end
  | None => None
  end.

(** A line item as [JSON.stringify] sees it: the object literal of
    [addToCart] fixes the order of the keys, and the spread copies of the
    other operations keep it. *)
Definition json_of_item (item : LineItem) : json :=
  JObject
    [ ("id", JString (id item));
      ("name", JString (name item));
      ("image", JString (image item));
      ("price", JNumber (price item));
      ("quantity", JNumber (inject_Z (quantity item)));
      ("premiumPackaging", JBool (premiumPackaging item)) ].

Definition JSON_stringify (items : list LineItem) : text :=
  stringify (JArray (map json_of_item items)).

Fixpoint member (k : string) (o : list (string * json)) : option json :=
  match o with
  | [] => None
  | (k', v) :: o' => if String.eqb k' k then Some v else member k o'
  end.

(** Reading a parsed value back as a line item: the six properties the
    store reads, with the types it writes them in. *)
Definition item_of_json (j : json) : option LineItem :=
  match j with
  | JObject o =>
      match member "id" o, member "name" o, member "image" o,
            member "price" o, member "quantity" o,
            member "premiumPackaging" o with
      | Some (JString i), Some (JString n), Some (JString im),
        Some (JNumber p), Some (JNumber (Qmake q 1)), Some (JBool b) =>
          Some {| id := i; name := n; image := im; price := p;
                  quantity := q; premiumPackaging := b |}
      | _, _, _, _, _, _ => None
      end
  | _ => None
  end.

Fixpoint items_of_json (l : list json) : option (list LineItem) :=
  match l with
  | [] => Some []
  | j :: l' =>
      match item_of_json j, items_of_json l' with
      | Some item, Some items => Some (item :: items)
      | _, _ => None
      end
  end.

(** ** The store *)

(** The state of [CartProvider], with the ['lorcanaCart'] entry of
    [localStorage] ([None]: no such entry). *)
Record Store := {
  cartItems : list LineItem;
  cartCount : Z;
  cartSubtotal : Q;
  taxRate : Q;
  shipping : Q;
  premiumPackPrice : Q;
  lorcanaCart : option text
}.

Definition setCartItems (items : list LineItem) (s : Store) : Store :=
  {| cartItems := items; cartCount := cartCount s;
     cartSubtotal := cartSubtotal s; taxRate := taxRate s;
     shipping := shipping s; premiumPackPrice := premiumPackPrice s;
     lorcanaCart := lorcanaCart s |}.

Definition setShipping (v : Q) (s : Store) : Store :=
  {| cartItems := cartItems s; cartCount := cartCount s;
     cartSubtotal := cartSubtotal s; taxRate := taxRate s;
     shipping := v; premiumPackPrice := premiumPackPrice s;
     lorcanaCart := lorcanaCart s |}.

Definition setPremiumPackPrice (v : Q) (s : Store) : Store :=
  {| cartItems := cartItems s; cartCount := cartCount s;
     cartSubtotal := cartSubtotal s; taxRate := taxRate s;
     shipping := shipping s; premiumPackPrice := v;
     lorcanaCart := lorcanaCart s |}.

(** The two reductions of the save effect. *)
Definition count_of (items : list LineItem) : Z :=
  fold_left (fun total item => total + quantity item) items 0.

Definition subtotal_of (items : list LineItem) : Q :=
  fold_left
    (fun total item => (total + price item * inject_Z (quantity item))%Q)
    items 0%Q.

(** The effect on [[cartItems]]: rewrite the durable record in full, then
    set the count and the subtotal. *)
Definition saveEffect (s : Store) : Store :=
  {| cartItems := cartItems s;
     cartCount := count_of (cartItems s);
     cartSubtotal := subtotal_of (cartItems s);
     taxRate := taxRate s;
     shipping := shipping s;
     premiumPackPrice := premiumPackPrice s;
     lorcanaCart := Some (JSON_stringify (cartItems s)) |}.

(** [setCartItems(prevItems => f(prevItems))], up to the next committed
    render. *)
Definition update (f : list LineItem -> list LineItem) (s : Store) : Store :=
  saveEffect (setCartItems (f (cartItems s)) s).

(** *** Operations *)

Definition same_id (i : string) (item : LineItem) : bool :=
  String.eqb (id item) i.

Definition new_item (card : Card) : LineItem :=
  {| id := _id card;
     name := Name card;
     image := Image card;
     price := or_else (Price card) 3.99;
     quantity := 1;
     premiumPackaging := false |}.

(** The updater of [addToCart]. *)
Definition addToCart_items (card : Card) (prevItems : list LineItem)
  : list LineItem :=
  match find (same_id (_id card)) prevItems with
  | Some _ =>
      map (fun item =>
             if same_id (_id card) item
             then with_quantity item (quantity item + 1)
             else item)
          prevItems
  | None => prevItems ++ [new_item card]
  end.

Definition addToCart (card : Card) : Store -> Store :=
  update (addToCart_items card).

Definition updateQuantity_items (i : string) (q : Z)
  (prevItems : list LineItem) : list LineItem :=
  map (fun item => if same_id i item then with_quantity item q else item)
      prevItems.

Definition updateQuantity (i : string) (q : Z) (s : Store) : Store :=
  if q <? 1 then s else update (updateQuantity_items i q) s.

Definition togglePremiumPackaging_items (i : string)
  (prevItems : list LineItem) : list LineItem :=
  map (fun item =>
         if same_id i item
         then with_premiumPackaging item (negb (premiumPackaging item))
         else item)
      prevItems.

Definition togglePremiumPackaging (i : string) : Store -> Store :=
  update (togglePremiumPackaging_items i).

Definition removeFromCart_items (i : string) (prevItems : list LineItem)
  : list LineItem :=
  filter (fun item => negb (same_id i item)) prevItems.

Definition removeFromCart (i : string) : Store -> Store :=
  update (removeFromCart_items i).

Definition clearCart : Store -> Store :=
  update (fun _ => []).

Definition updateShipping (newShippingPrice : Q) : Store -> Store :=
  setShipping newShippingPrice.

Definition updatePremiumPackPrice (newPremiumPackPrice : Q)
  : Store -> Store :=
  setPremiumPackPrice newPremiumPackPrice.

(** *** Pricing *)

Definition calculatePremiumPackagingTotal (s : Store) : Q :=
  fold_left
    (fun total item =>
       if premiumPackaging item
       then (total + premiumPackPrice s * inject_Z (quantity item))%Q
       else total)
    (cartItems s) 0%Q.

Definition calculateTotal (s : Store) : Q :=
  let premiumPackagingTotal := calculatePremiumPackagingTotal s in
  let taxableAmount := (cartSubtotal s + shipping s)%Q in
  let taxAmount := (taxableAmount * taxRate s)%Q in
  (cartSubtotal s + shipping s + premiumPackagingTotal + taxAmount)%Q.

Definition getTaxAmount (s : Store) : Q :=
  let taxableAmount := (cartSubtotal s + shipping s)%Q in
  (taxableAmount * taxRate s)%Q.

(** *** Mounting *)

Inductive exn := SyntaxError | TypeError.

(** What the first renders of [CartProvider] end in. *)
Inductive mounted :=
| Mounted (s : Store)
| Threw (e : exn)
| Untyped (j : json).

(** The state of the first render. *)
Definition initial (record : option text) : Store :=
  {| cartItems := []; cartCount := 0; cartSubtotal := 0%Q;
     taxRate := 0.13%Q; shipping := 5.99%Q; premiumPackPrice := 19.99%Q;
     lorcanaCart := record |}.

(** The load effect: [None] when the guard [if (storedCart)] is not taken,
    otherwise what [JSON.parse] makes of the record. *)
Definition loadEffect (s : Store) : option (option json) :=
  match lorcanaCart s with
  | None => None
  | Some [] => None
  | Some (t :: ts) => Some (JSON_parse (t :: ts))
  end.

(** Both effects run after the first render, the load effect first; a
    value handed to [setCartItems] is rendered next and the save effect
    runs on it.  A value that is not an array has no [reduce]; an array
    whose entries are not line items is stored as it is, and the typed
    store says nothing about it ([Untyped]). *)
Definition mount (record : option text) : mounted :=
  let s0 := initial record in
  match loadEffect s0 with
  | None => Mounted (saveEffect s0)
  | Some None => Threw SyntaxError
  | Some (Some (JArray l)) =>
      match items_of_json l with
      | Some items => Mounted (saveEffect (setCartItems items (saveEffect s0)))
      | None => Untyped (JArray l)
      end
  | Some (Some _) => Threw TypeError
  end.

(** ** The pricing rules as the specification words them *)

Definition sum_Q (l : list Q) : Q := fold_right Qplus 0%Q l.

(** Sum of [unitPrice * quantity] over all items. *)
Definition spec_subtotal (items : list LineItem) : Q :=
  sum_Q (map (fun item => (price item * inject_Z (quantity item))%Q) items).

(** Sum of [premiumPackUnitPrice * quantity] over the items with the flag. *)
Definition spec_premiumPackagingTotal (unit : Q) (items : list LineItem) : Q :=
  sum_Q (map (fun item => (unit * inject_Z (quantity item))%Q)
             (filter premiumPackaging items)).

(** A store whose count, subtotal and durable record agree with its
    items, as after every committed render. *)
Definition settled (s : Store) : Prop :=
  cartCount s = count_of (cartItems s) /\
  cartSubtotal s = subtotal_of (cartItems s) /\
  lorcanaCart s = Some (JSON_stringify (cartItems s)).

(** The lexemes of a non-empty list of line items, up to the closing
    bracket. *)
Definition items_text (item : LineItem) (items : list LineItem) : text :=
  join TComma (map stringify (map json_of_item (item :: items))).

(** [fuel] is enough for [parse]: a result it gives is a result for every
    amount of fuel from the number of lexemes read on. *)
Definition enough {A : Type} (parse : nat -> text -> option (A * text))
  (fuel : nat) : Prop :=
  forall ts v r,
    parse fuel ts = Some (v, r) ->
    (List.length r < List.length ts)%nat /\
    forall fuel',
      (List.length ts - List.length r <= fuel')%nat ->
      parse fuel' ts = Some (v, r).

(** ** Well-formed carts *)

Definition ids (items : list LineItem) : list string := map id items.

(** Every quantity is at least 1 and no identifier occurs twice. *)
Definition cart_wf (items : list LineItem) : Prop :=
  Forall (fun item => 1 <= quantity item) items /\ NoDup (ids items).

Definition mem (i : string) (l : list string) : bool :=
  existsb (String.eqb i) l.

(** The items present before and after stand in the same order. *)
Definition order_preserved (before after : list LineItem) : Prop :=
  filter (fun i => mem i (ids after)) (ids before)
  = filter (fun i => mem i (ids before)) (ids after).

(** ** Reachable stores: a mount, then the operations the context exposes *)

Inductive reachable : Store -> Prop :=
| reach_mount record s :
    mount record = Mounted s -> reachable s
| reach_addToCart card s :
    reachable s -> reachable (addToCart card s)
| reach_updateQuantity i q s :
    reachable s -> reachable (updateQuantity i q s)
| reach_togglePremiumPackaging i s :
    reachable s -> reachable (togglePremiumPackaging i s)
| reach_removeFromCart i s :
    reachable s -> reachable (removeFromCart i s)
| reach_clearCart s :
    reachable s -> reachable (clearCart s)
| reach_updateShipping v s :
    reachable s -> reachable (updateShipping v s)
| reach_updatePremiumPackPrice v s :
    reachable s -> reachable (updatePremiumPackPrice v s).

(** ** Two claims in the specification's own words *)

(** The new line item takes the catalog price, and the fallback only when
    the catalog item has no price. *)
Definition price_captured_as_stated (card : Card) (s : Store) : Prop :=
  forall item,
    cartItems (addToCart card s) = cartItems s ++ [item] ->
    match Price card with
    | Some p => price item = p
    | None => price item = 3.99%Q
    end.

(** The store comes up, with no items. *)
Definition starts_empty (record : option text) : Prop :=
  exists s, mount record = Mounted s /\ cartItems s = [].

(** The record is absent or [JSON.parse] cannot read it. *)
Definition unreadable (record : option text) : Prop :=
  match record with
  | None => True
  | Some ts => JSON_parse ts = None
  end.


(** ** Sample data *)

Definition elsa : Card :=
  {| _id := "card-1"; Name := "Elsa"; Image := "elsa.png";
     Price := Some 4.99%Q |}.

Definition stitch : Card :=
  {| _id := "card-2"; Name := "Stitch"; Image := "stitch.png";
     Price := None |}.

Definition promo : Card :=
  {| _id := "card-3"; Name := "Promo"; Image := "promo.png";
     Price := Some 0%Q |}.

Definition fresh : Store := saveEffect (initial None).

(** A record cut short in the middle of its first line item. *)
Definition truncated : text :=
  [TLBracket; TLBrace; TString "id"; TColon; TString "card-1"; TComma].

(** ** Sums and the life of a store *)

Definition sum_Z (l : list Z) : Z := fold_right Z.add 0 l.

(** The quantity that has premium packaging. *)
Definition flagged_quantity (items : list LineItem) : Z :=
  sum_Z (map quantity (filter premiumPackaging items)).

(** The stores of a browser that first came without a record: operations
    and reloads from the record the store itself wrote. *)
Inductive lives : Store -> Prop :=
| lives_first_visit : lives fresh
| lives_reload s s' :
    lives s -> mount (lorcanaCart s) = Mounted s' -> lives s'
| lives_addToCart card s : lives s -> lives (addToCart card s)
| lives_updateQuantity i q s : lives s -> lives (updateQuantity i q s)
| lives_togglePremiumPackaging i s :
    lives s -> lives (togglePremiumPackaging i s)
| lives_removeFromCart i s : lives s -> lives (removeFromCart i s)
| lives_clearCart s : lives s -> lives (clearCart s)
| lives_updateShipping v s : lives s -> lives (updateShipping v s)
| lives_updatePremiumPackPrice v s :
    lives s -> lives (updatePremiumPackPrice v s).

(** ** The cart page ([Cart.jsx]) *)

Module ShippingOption.
Record t := { id : string; name : string; price : Q }.
End ShippingOption.

(** The state of [Cart] that the shipping selector uses. *)
Record CartPage := {
  shippingOptions : list ShippingOption.t;
  selectedShippingOption : string
}.

Definition is_option (optionId : string) (opt : ShippingOption.t) : bool :=
  String.eqb (ShippingOption.id opt) optionId.

Definition handleShippingOptionChange (optionId : string)
  (page : CartPage) (s : Store) : CartPage * Store :=
  let page' := {| shippingOptions := shippingOptions page;
                  selectedShippingOption := optionId |} in
  match find (is_option optionId) (shippingOptions page) with
  | Some option => (page', updateShipping (ShippingOption.price option) s)
  | None => (page', s)
  end.

Definition getSelectedShippingPrice (page : CartPage) (s : Store) : Q :=
  if String.eqb (selectedShippingOption page) ""
     || Nat.eqb (List.length (shippingOptions page)) 0
  then shipping s
  else
    match find (is_option (selectedShippingOption page))
               (shippingOptions page) with
    | Some option => ShippingOption.price option
    | None => shipping s
    end.

(** The [-] and [+] buttons of a [CartItem], and when [-] is disabled. *)
Definition minus_onClick (item : LineItem) : Store -> Store :=
  updateQuantity (id item) (quantity item - 1).

Definition minus_disabled (item : LineItem) : bool := quantity item <=? 1.

Definition plus_onClick (item : LineItem) : Store -> Store :=
  updateQuantity (id item) (quantity item + 1).

(** The summary shows the premium packaging row when some item has the
    flag. *)
Definition showsPremiumRow (s : Store) : bool :=
  existsb premiumPackaging (cartItems s).

(** ** The card grid ([CardItem], [DisplayCard]) *)

(** The price a [CardItem] shows. *)
Definition shownPrice (cardData : Card) : Q := or_else (Price cardData) 3.99.

Definition handleAddToCart (cardData : Card) : Store -> Store :=
  addToCart cardData.

(** [Array.prototype.slice] for indices that are not negative. *)
Definition slice {A : Type} (first last : nat) (l : list A) : list A :=
  firstn (last - first) (skipn first l).

Definition indexOfLastCard (currentPage cardsPerPage : nat) : nat :=
  currentPage * cardsPerPage.

Definition indexOfFirstCard (currentPage cardsPerPage : nat) : nat :=
  indexOfLastCard currentPage cardsPerPage - cardsPerPage.

Definition currentCards {A : Type} (filteredCards : list A)
  (currentPage cardsPerPage : nat) : list A :=
  slice (indexOfFirstCard currentPage cardsPerPage)
        (indexOfLastCard currentPage cardsPerPage) filteredCards.

(** [Math.ceil(a / b)] for a positive [b]. *)
Definition ceil_div (a b : nat) : nat :=
  if Nat.eqb (a mod b) 0 then a / b else S (a / b).

Definition totalPages {A : Type} (filteredCards : list A)
  (cardsPerPage : nat) : nat :=
  ceil_div (List.length filteredCards) cardsPerPage.

Definition handleNextPage (currentPage totalPages : nat) : nat :=
  if Nat.ltb currentPage totalPages then currentPage + 1 else currentPage.

Definition handlePrevPage (currentPage : nat) : nat :=
  if Nat.ltb 1 currentPage then currentPage - 1 else currentPage.

(** The set number of a catalog item: a number, a string, or none. *)
Inductive SetNum :=
| SetNumber (n : Q)
| SetText (t : string)
| SetAbsent.

(** A catalog item with the properties the filters read. *)
Record CatalogCard := {
  card : Card;
  Set_Num : SetNum;
  Rarity : option string;
  Color : option string
}.

(** [card.Set_Num === Number(selectedSet)] for a number,
    [card.Set_Num === selectedSet] otherwise; [Number] is ECMAScript's
    conversion, [None] for [NaN]. *)
Definition matchesSet (Number : string -> option Q) (selectedSet : string)
  (c : CatalogCard) : bool :=
  match Set_Num c with
  | SetNumber n =>
      match Number selectedSet with
      | Some m => Qeq_bool n m
      | None => false
      end
  | SetText t => String.eqb t selectedSet
  | SetAbsent => false
  end.

Definition is_text (selected : string) (value : option string) : bool :=
  match value with
  | Some v => String.eqb v selected
  | None => false
  end.

(** The filter effect of [DisplayCard]. *)
Definition applyFilters (Number : string -> option Q)
  (cards : list CatalogCard)
  (selectedSet selectedRarity selectedColor : string) : list CatalogCard :=
  let result := cards in
  let result :=
    if String.eqb selectedSet "" then result
    else filter (matchesSet Number selectedSet) result in
  let result :=
    if String.eqb selectedRarity "" then result
    else filter (fun c => is_text selectedRarity (Rarity c)) result in
  let result :=
    if String.eqb selectedColor "" then result
    else filter (fun c => is_text selectedColor (Color c)) result in
  result.

(** [[...new Set(values)]]: first occurrences, in order. *)
Fixpoint unique (seen : list string) (values : list string) : list string :=
  match values with
  | [] => []
  | v :: values' =>
      if mem v seen then unique seen values'
      else v :: unique (v :: seen) values'
  end.

(** [values.filter(Boolean)] on strings that may be missing. *)
Definition truthy_texts (values : list (option string)) : list string :=
  flat_map (fun value =>
              match value with
              | Some v => if String.eqb v "" then [] else [v]
              | None => []
              end)
           values.

Definition uniqueRarities (data : list CatalogCard) : list string :=
  unique [] (truthy_texts (map Rarity data)).

Definition uniqueColors (data : list CatalogCard) : list string :=
  unique [] (truthy_texts (map Color data)).

(** A card passes the three filters that are set. *)
Definition passes (Number : string -> option Q)
  (selectedSet selectedRarity selectedColor : string) (c : CatalogCard)
  : bool :=
  (String.eqb selectedSet "" || matchesSet Number selectedSet c)
  && (String.eqb selectedRarity "" || is_text selectedRarity (Rarity c))
  && (String.eqb selectedColor "" || is_text selectedColor (Color c)).

(** The cart page after the pricing settings have arrived: two shipping
    options, the first one selected and charged. *)
Definition gta : ShippingOption.t :=
  {| ShippingOption.id := "gta"; ShippingOption.name := "GTA";
     ShippingOption.price := 5.99%Q |}.

Definition canada_wide : ShippingOption.t :=
  {| ShippingOption.id := "canada-wide"; ShippingOption.name := "Canada Wide";
     ShippingOption.price := 12.99%Q |}.

Definition cart_page : CartPage :=
  {| shippingOptions := [gta; canada_wide];
     selectedShippingOption := "gta" |}.

(** Two catalog entries. *)
Definition elsa_listing : CatalogCard :=
  {| card := elsa; Set_Num := SetNumber 1; Rarity := Some "Rare";
     Color := Some "Sapphire" |}.

Definition stitch_listing : CatalogCard :=
  {| card := stitch; Set_Num := SetText "2"; Rarity := Some "Common";
     Color := None |}.

(** * Properties *)

Section Reductions.

Variable f : LineItem -> Q.

Lemma fold_left_sum (items : list LineItem) (a : Q) :
  (fold_left (fun total item => total + f item) items a
   == a + sum_Q (map f items))%Q.
Proof.
  revert a; induction items as [|item items IH]; intro a; simpl.
  - ring.
  - rewrite IH. ring.
Qed.

Lemma fold_left_nonneg (items : list LineItem) (a : Q) :
  (0 <= a)%Q ->
  Forall (fun item => 0 <= f item)%Q items ->
  (a <= fold_left (fun total item => total + f item) items a)%Q.
Proof.
  revert a; induction items as [|item items IH]; intros a Ha Hall; simpl.
  - apply Qle_refl.
  - inversion Hall as [|? ? Hitem Hrest]; subst.
    apply Qle_trans with (a + f item)%Q.
    + lra.
    + apply IH; [lra | assumption].
Qed.

End Reductions.

Lemma saveEffect_settled (s : Store) : settled (saveEffect s).
Proof. repeat split. Qed.

Lemma update_settled (f : list LineItem -> list LineItem) (s : Store) :
  settled (update f s).
Proof. apply saveEffect_settled. Qed.

Lemma settled_saveEffect (s : Store) : settled s -> saveEffect s = s.
Proof.
  destruct s as [items n c rate ship unit r]; unfold settled, saveEffect; simpl.
  intros (-> & -> & ->). reflexivity.
Qed.

Lemma premium_fold (unit : Q) (items : list LineItem) (a : Q) :
  (fold_left
     (fun total item =>
        if premiumPackaging item
        then total + unit * inject_Z (quantity item) else total)
     items a
   == a + spec_premiumPackagingTotal unit items)%Q.
Proof.
  unfold spec_premiumPackagingTotal.
  revert a; induction items as [|item items IH]; intro a; simpl.
  - ring.
  - rewrite IH. destruct (premiumPackaging item); simpl; ring.
Qed.

Lemma premium_fold_nonneg (unit : Q) (items : list LineItem) (a : Q) :
  (0 <= unit)%Q ->
  Forall (fun item => 0 <= quantity item) items ->
  (a <= fold_left
          (fun total item =>
             if premiumPackaging item
             then total + unit * inject_Z (quantity item) else total)
          items a)%Q.
Proof.
  intros Hunit.
  revert a; induction items as [|item items IH]; intros a Hall; simpl.
  - apply Qle_refl.
  - inversion Hall as [|? ? Hq Hrest]; subst.
    eapply Qle_trans; [|apply IH; assumption].
    destruct (premiumPackaging item); [|apply Qle_refl].
    assert (0 <= unit * inject_Z (quantity item))%Q.
    { apply Qmult_le_0_compat; [assumption|].
      unfold Qle; simpl. lia. }
    lra.
Qed.

(** C1. For every list of line items and every tax rate, shipping cost and
    premium unit price, the total of the committed store is
    subtotal + shipping + premium packaging total + tax, with
    tax = (subtotal + shipping) * rate: the premium packaging total is
    added to the total and is no part of the taxed amount.  The subtotal is
    the sum of price * quantity over all items, the premium packaging total
    the sum of unit price * quantity over the flagged items. *)
Theorem total_is_sum_of_parts :
  forall (items : list LineItem) (rate ship unit : Q)
         (n : Z) (c : Q) (r : option text),
    let s := saveEffect {| cartItems := items; cartCount := n;
                           cartSubtotal := c; taxRate := rate;
                           shipping := ship; premiumPackPrice := unit;
                           lorcanaCart := r |} in
    calculateTotal s
    = (cartSubtotal s + ship + calculatePremiumPackagingTotal s
       + getTaxAmount s)%Q
    /\ getTaxAmount s = ((cartSubtotal s + ship) * rate)%Q
    /\ (cartSubtotal s == spec_subtotal items)%Q
    /\ (calculatePremiumPackagingTotal s
        == spec_premiumPackagingTotal unit items)%Q
    /\ (calculateTotal s
        == spec_subtotal items + ship + spec_premiumPackagingTotal unit items
           + (spec_subtotal items + ship) * rate)%Q.
Proof.
  intros items rate ship unit n c r s.
  assert (Hsub : (cartSubtotal s == spec_subtotal items)%Q).
  { unfold s, saveEffect, subtotal_of, spec_subtotal; simpl.
    rewrite (fold_left_sum
               (fun item => price item * inject_Z (quantity item))%Q).
    ring. }
  assert (Hpack : (calculatePremiumPackagingTotal s
                   == spec_premiumPackagingTotal unit items)%Q).
  { unfold s, calculatePremiumPackagingTotal; simpl.
    rewrite premium_fold. ring. }
  repeat split; try assumption.
  unfold calculateTotal. cbv zeta.
  rewrite Hpack, Hsub. reflexivity.
Qed.

(** The worked example of the specification, in exact arithmetic: one item
    at 4.99, twice, shipping 5.99, rate 0.13. *)
Example worked_total :
  let s := addToCart elsa (addToCart elsa fresh) in
  (cartSubtotal s == 9.98)%Q /\ (getTaxAmount s == 2.0761)%Q /\
  (calculateTotal s == 18.0461)%Q /\
  (calculateTotal (togglePremiumPackaging "card-1" s) == 58.0261)%Q.
Proof. vm_compute. repeat split. Qed.

(** C8. With non-negative prices, quantities, rate, shipping cost and
    premium unit price, the total is at least subtotal + shipping. *)
Theorem total_at_least_subtotal_and_shipping :
  forall (items : list LineItem) (rate ship unit : Q)
         (n : Z) (c : Q) (r : option text),
    Forall (fun item => (0 <= price item)%Q /\ 0 <= quantity item) items ->
    (0 <= rate)%Q -> (0 <= ship)%Q -> (0 <= unit)%Q ->
    let s := saveEffect {| cartItems := items; cartCount := n;
                           cartSubtotal := c; taxRate := rate;
                           shipping := ship; premiumPackPrice := unit;
                           lorcanaCart := r |} in
    (cartSubtotal s + shipping s <= calculateTotal s)%Q.
Proof.
  intros items rate ship unit n c r Hitems Hrate Hship Hunit s.
  assert (Hsub : (0 <= cartSubtotal s)%Q).
  { unfold s, saveEffect, subtotal_of; simpl.
    apply (fold_left_nonneg
             (fun item => price item * inject_Z (quantity item))%Q).
    - apply Qle_refl.
    - eapply Forall_impl; [|exact Hitems].
      intros item [Hp Hq]. apply Qmult_le_0_compat; [assumption|].
      unfold Qle; simpl. lia. }
  assert (Hpack : (0 <= calculatePremiumPackagingTotal s)%Q).
  { unfold s, calculatePremiumPackagingTotal; simpl.
    apply premium_fold_nonneg; [assumption|].
    eapply Forall_impl; [|exact Hitems]. intros item [_ Hq]; exact Hq. }
  assert (Htax : (0 <= (cartSubtotal s + shipping s) * taxRate s)%Q).
  { apply Qmult_le_0_compat; [|exact Hrate].
    change (shipping s) with ship. lra. }
  unfold calculateTotal. cbv zeta.
  set (p := calculatePremiumPackagingTotal s) in *.
  set (t := ((cartSubtotal s + shipping s) * taxRate s)%Q) in *.
  lra.
Qed.

Lemma total_at_least_subtotal_and_shipping_witness :
  let items := cartItems (addToCart stitch (addToCart elsa fresh)) in
  let s := saveEffect {| cartItems := items; cartCount := 0;
                         cartSubtotal := 0; taxRate := 0.13;
                         shipping := 5.99; premiumPackPrice := 19.99;
                         lorcanaCart := None |} in
  (cartSubtotal s + shipping s <= calculateTotal s)%Q.
Proof.
  apply (total_at_least_subtotal_and_shipping
           (cartItems (addToCart stitch (addToCart elsa fresh)))
           0.13 5.99 19.99 0 0 None).
  - repeat constructor; vm_compute; discriminate.
  - vm_compute; discriminate.
  - vm_compute; discriminate.
  - vm_compute; discriminate.
Defined.

(** ** The operations on the item list *)

Lemma cartItems_update (f : list LineItem -> list LineItem) (s : Store) :
  cartItems (update f s) = f (cartItems s).
Proof. reflexivity. Qed.

Lemma absent_find (i : string) (items : list LineItem) :
  (forall item, In item items -> id item <> i) ->
  find (same_id i) items = None.
Proof.
  induction items as [|item items IH]; intro H; simpl; [reflexivity|].
  destruct (same_id i item) eqn:E.
  - apply String.eqb_eq in E. destruct (H item (or_introl eq_refl) E).
  - apply IH. intros item' Hin. apply H. right; exact Hin.
Qed.

Lemma present_find (i : string) (items : list LineItem) :
  (exists item, In item items /\ id item = i) ->
  exists item, find (same_id i) items = Some item.
Proof.
  intros (item & Hin & Hid).
  destruct (find (same_id i) items) as [found|] eqn:E; [eauto|].
  pose proof (find_none _ _ E item Hin) as Hf.
  unfold same_id in Hf. rewrite Hid, String.eqb_refl in Hf. discriminate.
Qed.

Lemma map_absent (i : string) (g : LineItem -> LineItem)
  (items : list LineItem) :
  (forall item, In item items -> id item <> i) ->
  map (fun item => if same_id i item then g item else item) items = items.
Proof.
  induction items as [|item items IH]; intro H; simpl; [reflexivity|].
  rewrite IH by (intros item' Hin; apply H; right; exact Hin).
  destruct (same_id i item) eqn:E; [|reflexivity].
  apply String.eqb_eq in E. destruct (H item (or_introl eq_refl) E).
Qed.

Lemma nth_error_map_if (i : string) (g : LineItem -> LineItem)
  (items : list LineItem) (k : nat) (item : LineItem) :
  nth_error items k = Some item ->
  nth_error (map (fun item => if same_id i item then g item else item) items) k
  = Some (if String.eqb (id item) i then g item else item).
Proof.
  intro H. rewrite nth_error_map, H. reflexivity.
Qed.

(** C3. [addToCart] on an identifier already in the cart adds 1 to the
    quantity of the line item that carries it and leaves the number of
    line items as it was; on an identifier not in the cart it appends a
    line item with quantity 1 and no premium packaging.  It is a total
    function on stores.  Adding the same catalog item twice to an empty
    cart gives one line item with quantity 2. *)
Theorem addToCart_increments_or_appends :
  forall (card : Card) (s : Store),
    ((exists item, In item (cartItems s) /\ id item = _id card) ->
     List.length (cartItems (addToCart card s)) = List.length (cartItems s) /\
     forall k item,
       nth_error (cartItems s) k = Some item ->
       nth_error (cartItems (addToCart card s)) k
       = Some (if String.eqb (id item) (_id card)
               then with_quantity item (quantity item + 1)
               else item))
    /\
    ((forall item, In item (cartItems s) -> id item <> _id card) ->
     exists item,
       cartItems (addToCart card s) = cartItems s ++ [item] /\
       id item = _id card /\ name item = Name card /\
       image item = Image card /\
       quantity item = 1 /\ premiumPackaging item = false)
    /\
    (cartItems s = [] ->
     exists item,
       cartItems (addToCart card (addToCart card s)) = [item] /\
       id item = _id card /\ quantity item = 2).
Proof.
  intros card s. unfold addToCart. rewrite !cartItems_update.
  split; [|split].
  - intro Hin. destruct (present_find _ _ Hin) as [found Hfound].
    unfold addToCart_items. rewrite Hfound. split.
    + apply length_map.
    + intros k item Hk.
      apply (nth_error_map_if (_id card)
               (fun item => with_quantity item (quantity item + 1))).
      exact Hk.
  - intro Hout. unfold addToCart_items. rewrite (absent_find _ _ Hout).
    exists (new_item card). repeat split.
  - intro Hempty. rewrite Hempty.
    exists (with_quantity (new_item card) 2).
    unfold addToCart_items; simpl. unfold same_id; simpl.
    rewrite String.eqb_refl. simpl. repeat split.
Qed.

Lemma addToCart_increments_or_appends_witness :
  (List.length (cartItems (addToCart elsa (addToCart elsa fresh))) = 1%nat) /\
  (exists item,
     cartItems (addToCart stitch (addToCart elsa fresh))
     = cartItems (addToCart elsa fresh) ++ [item] /\
     quantity item = 1 /\ premiumPackaging item = false) /\
  (exists item,
     cartItems (addToCart elsa (addToCart elsa fresh)) = [item] /\
     quantity item = 2).
Proof.
  split; [|split].
  - destruct (addToCart_increments_or_appends elsa (addToCart elsa fresh))
      as (H & _ & _).
    destruct H as [Hlen _].
    + exists (new_item elsa). split; [left; reflexivity | reflexivity].
    + exact Hlen.
  - destruct (addToCart_increments_or_appends stitch (addToCart elsa fresh))
      as (_ & H & _).
    destruct H as (item & Heq & _ & _ & _ & Hq & Hp).
    + intros item [<- | []]. vm_compute. discriminate.
    + exists item. repeat split; assumption.
  - destruct (addToCart_increments_or_appends elsa fresh) as (_ & _ & H).
    destruct H as (item & Heq & _ & Hq).
    + reflexivity.
    + exists item. split; assumption.
Defined.

(** C4. [updateQuantity] with a new quantity of at least 1 sets the
    quantity of the line item with the given identifier and touches no
    other; with a new quantity below 1 it returns the store as it was;
    with an identifier that no line item carries it leaves the items as
    they were.  It is a total function on stores. *)
Theorem updateQuantity_sets_or_ignores :
  forall (i : string) (q : Z) (s : Store),
    (1 <= q ->
     List.length (cartItems (updateQuantity i q s))
     = List.length (cartItems s) /\
     forall k item,
       nth_error (cartItems s) k = Some item ->
       nth_error (cartItems (updateQuantity i q s)) k
       = Some (if String.eqb (id item) i then with_quantity item q else item))
    /\
    (q < 1 -> updateQuantity i q s = s)
    /\
    ((forall item, In item (cartItems s) -> id item <> i) ->
     cartItems (updateQuantity i q s) = cartItems s).
Proof.
  intros i q s. unfold updateQuantity. split; [|split].
  - intro Hq. destruct (Z.ltb_spec q 1) as [Hlt|_]; [lia|].
    rewrite cartItems_update. split.
    + apply length_map.
    + intros k item Hk.
      apply (nth_error_map_if i (fun item => with_quantity item q)).
      exact Hk.
  - intro Hq. destruct (Z.ltb_spec q 1) as [_|Hge]; [reflexivity | lia].
  - intro Hout. destruct (q <? 1); [reflexivity|].
    rewrite cartItems_update. apply map_absent. exact Hout.
Qed.

Lemma updateQuantity_sets_or_ignores_witness :
  (exists item,
     nth_error (cartItems (updateQuantity "card-1" 5 (addToCart elsa fresh)))
               0
     = Some item /\ quantity item = 5) /\
  updateQuantity "card-1" 0 (addToCart elsa fresh) = addToCart elsa fresh /\
  updateQuantity "card-1" (-1) (addToCart elsa fresh) = addToCart elsa fresh /\
  cartItems (updateQuantity "card-2" 5 (addToCart elsa fresh))
  = cartItems (addToCart elsa fresh).
Proof.
  split; [|split; [|split]].
  - destruct (updateQuantity_sets_or_ignores "card-1" 5 (addToCart elsa fresh))
      as (H & _ & _).
    destruct H as [_ H]; [lia|].
    exists (with_quantity (new_item elsa) 5). split; [|reflexivity].
    apply (H 0%nat (new_item elsa)). reflexivity.
  - destruct (updateQuantity_sets_or_ignores "card-1" 0 (addToCart elsa fresh))
      as (_ & H & _).
    apply H. lia.
  - destruct (updateQuantity_sets_or_ignores "card-1" (-1)
                (addToCart elsa fresh)) as (_ & H & _).
    apply H. lia.
  - destruct (updateQuantity_sets_or_ignores "card-2" 5 (addToCart elsa fresh))
      as (_ & _ & H).
    apply H. intros item [<- | []]. vm_compute. discriminate.
Defined.

(** ** The price of a new line item *)

Lemma or_else_priced (p d : Q) : ~ (p == 0)%Q -> or_else (Some p) d = p.
Proof.
  intro H. unfold or_else, truthy.
  destruct (Qeq_bool p 0) eqn:E; [|reflexivity].
  apply Qeq_bool_eq in E. contradiction.
Qed.

Lemma or_else_zero (p d : Q) : (p == 0)%Q -> or_else (Some p) d = d.
Proof.
  intro H. unfold or_else, truthy.
  apply Qeq_eq_bool in H. rewrite H. reflexivity.
Qed.

(** C5, as stated, fails for a catalog item priced 0: the item has a price,
    and the new line item is priced 3.99. *)
Lemma zero_price_takes_fallback :
  Price promo = Some 0%Q /\
  cartItems (addToCart promo fresh) = [new_item promo] /\
  price (new_item promo) = 3.99%Q /\
  ~ price_captured_as_stated promo fresh.
Proof.
  repeat split.
  intro H. specialize (H (new_item promo) eq_refl). discriminate H.
Qed.

(** C5, amended. The new line item takes the catalog price when there is
    one and it is not 0; it takes the fallback 3.99 when the catalog item
    has no price or a price of 0. *)
Theorem new_item_price :
  forall (card : Card) (s : Store),
    (forall item, In item (cartItems s) -> id item <> _id card) ->
    exists item,
      cartItems (addToCart card s) = cartItems s ++ [item] /\
      (forall p, Price card = Some p -> ~ (p == 0)%Q -> price item = p) /\
      (forall p, Price card = Some p -> (p == 0)%Q -> price item = 3.99%Q) /\
      (Price card = None -> price item = 3.99%Q).
Proof.
  intros card s Hout. exists (new_item card).
  unfold addToCart. rewrite cartItems_update.
  unfold addToCart_items. rewrite (absent_find _ _ Hout).
  split; [reflexivity|]. simpl. split; [|split].
  - intros p -> Hp. apply or_else_priced. exact Hp.
  - intros p -> Hp. apply or_else_zero. exact Hp.
  - intros ->. reflexivity.
Qed.

Lemma new_item_price_witness :
  (exists item,
      cartItems (addToCart elsa fresh) = cartItems fresh ++ [item] /\
      price item = 4.99%Q) /\
  (exists item,
      cartItems (addToCart promo fresh) = cartItems fresh ++ [item] /\
      price item = 3.99%Q) /\
  (exists item,
      cartItems (addToCart stitch fresh) = cartItems fresh ++ [item] /\
      price item = 3.99%Q).
Proof.
  split; [|split].
  - destruct (new_item_price elsa fresh) as (item & Heq & Hp & _).
    + intros item [].
    + exists item. split; [exact Heq|].
      apply Hp; [reflexivity | vm_compute; discriminate].
  - destruct (new_item_price promo fresh) as (item & Heq & _ & Hp & _).
    + intros item [].
    + exists item. split; [exact Heq|].
      apply (Hp 0%Q); reflexivity.
  - destruct (new_item_price stitch fresh) as (item & Heq & _ & _ & Hp).
    + intros item [].
    + exists item. split; [exact Heq|]. apply Hp. reflexivity.
Defined.

(** ** Well-formedness is preserved *)

Lemma mem_In (i : string) (l : list string) : mem i l = true <-> In i l.
Proof.
  unfold mem. rewrite existsb_exists. split.
  - intros (j & Hin & E). apply String.eqb_eq in E. subst. exact Hin.
  - intro Hin. exists i. split; [exact Hin | apply String.eqb_refl].
Qed.

Lemma filter_all (A : Type) (f : A -> bool) (l : list A) :
  (forall x, In x l -> f x = true) -> filter f l = l.
Proof.
  induction l as [|x l IH]; intro H; simpl; [reflexivity|].
  rewrite (H x (or_introl eq_refl)), IH; [reflexivity|].
  intros y Hy. apply H. right; exact Hy.
Qed.

Lemma filter_none (A : Type) (f : A -> bool) (l : list A) :
  (forall x, In x l -> f x = false) -> filter f l = [].
Proof.
  induction l as [|x l IH]; intro H; simpl; [reflexivity|].
  rewrite (H x (or_introl eq_refl)). apply IH.
  intros y Hy. apply H. right; exact Hy.
Qed.

Lemma order_same_ids (before after : list LineItem) :
  ids after = ids before -> order_preserved before after.
Proof. unfold order_preserved. intros ->. reflexivity. Qed.

Lemma order_appended (before after : list LineItem) (i : string) :
  ~ In i (ids before) -> ids after = ids before ++ [i] ->
  order_preserved before after.
Proof.
  unfold order_preserved. intros Hout ->.
  rewrite filter_app.
  rewrite (filter_all _ (fun j => mem j (ids before ++ [i])) (ids before))
    by (intros j Hj; apply mem_In, in_or_app; left; exact Hj).
  rewrite (filter_all _ (fun j => mem j (ids before)) (ids before))
    by (intros j Hj; apply mem_In; exact Hj).
  simpl. destruct (mem i (ids before)) eqn:E.
  - apply mem_In in E. contradiction.
  - symmetry. apply app_nil_r.
Qed.

Lemma order_filtered (before after : list LineItem) (p : string -> bool) :
  ids after = filter p (ids before) -> order_preserved before after.
Proof.
  unfold order_preserved. intros ->.
  rewrite (filter_all _ _ (filter p (ids before))).
  - apply filter_ext_in. intros j Hj.
    destruct (p j) eqn:E.
    + apply mem_In. apply filter_In. split; assumption.
    + destruct (mem j (filter p (ids before))) eqn:M; [|reflexivity].
      apply mem_In, filter_In in M. destruct M as [_ M]. congruence.
  - intros j Hj. apply mem_In. apply filter_In in Hj. apply Hj.
Qed.

Lemma ids_map_if (i : string) (g : LineItem -> LineItem)
  (items : list LineItem) :
  (forall item, id (g item) = id item) ->
  ids (map (fun item => if same_id i item then g item else item) items)
  = ids items.
Proof.
  intro Hg. unfold ids. rewrite map_map. apply map_ext.
  intro item. destruct (same_id i item); [apply Hg | reflexivity].
Qed.

Lemma ids_removeFromCart (i : string) (items : list LineItem) :
  ids (removeFromCart_items i items)
  = filter (fun j => negb (String.eqb j i)) (ids items).
Proof.
  unfold ids, removeFromCart_items. rewrite filter_map_swap. reflexivity.
Qed.

Lemma quantities_map_if (i : string) (g : LineItem -> LineItem)
  (items : list LineItem) :
  (forall item, 1 <= quantity item -> 1 <= quantity (g item)) ->
  Forall (fun item => 1 <= quantity item) items ->
  Forall (fun item => 1 <= quantity item)
         (map (fun item => if same_id i item then g item else item) items).
Proof.
  intros Hg Hall. apply Forall_map.
  eapply Forall_impl; [|exact Hall].
  intros item Hq. simpl. destruct (same_id i item); [apply Hg|]; exact Hq.
Qed.

Lemma wf_map_if (i : string) (g : LineItem -> LineItem)
  (items : list LineItem) :
  (forall item, id (g item) = id item) ->
  (forall item, 1 <= quantity item -> 1 <= quantity (g item)) ->
  cart_wf items ->
  cart_wf (map (fun item => if same_id i item then g item else item) items)
  /\ order_preserved
       items (map (fun item => if same_id i item then g item else item) items).
Proof.
  intros Hid Hq [Hquant Hdup]. split; [split|].
  - apply quantities_map_if; assumption.
  - rewrite ids_map_if by exact Hid. exact Hdup.
  - apply order_same_ids. apply ids_map_if. exact Hid.
Qed.

Lemma wf_addToCart (card : Card) (items : list LineItem) :
  cart_wf items ->
  cart_wf (addToCart_items card items)
  /\ order_preserved items (addToCart_items card items).
Proof.
  intros Hwf. unfold addToCart_items.
  destruct (find (same_id (_id card)) items) as [found|] eqn:E.
  - apply wf_map_if; [reflexivity | simpl; intros; lia | exact Hwf].
  - destruct Hwf as [Hquant Hdup].
    assert (Hout : ~ In (_id card) (ids items)).
    { intro Hin. apply in_map_iff in Hin. destruct Hin as (item & Hid & Hin).
      pose proof (find_none _ _ E item Hin) as Hf.
      unfold same_id in Hf. rewrite Hid, String.eqb_refl in Hf.
      discriminate. }
    split; [split|].
    + apply Forall_app. split; [exact Hquant|].
      constructor; [simpl; lia | constructor].
    + unfold ids. rewrite map_app. simpl. apply NoDup_app.
      * exact Hdup.
      * constructor; [intros [] | constructor].
      * intros j Hj [<- | []]. apply Hout. exact Hj.
    + apply (order_appended _ _ (_id card)); [exact Hout|].
      unfold ids. rewrite map_app. reflexivity.
Qed.

Lemma wf_removeFromCart (i : string) (items : list LineItem) :
  cart_wf items ->
  cart_wf (removeFromCart_items i items)
  /\ order_preserved items (removeFromCart_items i items).
Proof.
  intros [Hquant Hdup]. split; [split|].
  - unfold removeFromCart_items.
    apply Forall_forall. intros item Hin. apply filter_In in Hin.
    rewrite Forall_forall in Hquant. apply Hquant. apply Hin.
  - rewrite ids_removeFromCart. apply NoDup_filter. exact Hdup.
  - eapply order_filtered. apply ids_removeFromCart.
Qed.

(** C6. Every operation on the cart keeps it well formed: all quantities
    stay at least 1 (and integers), no identifier occurs twice, and the
    line items that remain stand in the order they had. *)
Theorem operations_keep_cart_well_formed :
  forall s : Store,
    cart_wf (cartItems s) ->
    (forall card,
        cart_wf (cartItems (addToCart card s)) /\
        order_preserved (cartItems s) (cartItems (addToCart card s))) /\
    (forall i q,
        cart_wf (cartItems (updateQuantity i q s)) /\
        order_preserved (cartItems s) (cartItems (updateQuantity i q s))) /\
    (forall i,
        cart_wf (cartItems (togglePremiumPackaging i s)) /\
        order_preserved (cartItems s)
                        (cartItems (togglePremiumPackaging i s))) /\
    (forall i,
        cart_wf (cartItems (removeFromCart i s)) /\
        order_preserved (cartItems s) (cartItems (removeFromCart i s))) /\
    (cart_wf (cartItems (clearCart s)) /\
     order_preserved (cartItems s) (cartItems (clearCart s))).
Proof.
  intros s Hwf. split; [|split; [|split; [|split; [|split]]]].
  - intro card. apply wf_addToCart. exact Hwf.
  - intros i q. unfold updateQuantity.
    destruct (Z.ltb_spec q 1) as [Hlt|Hge].
    + split; [exact Hwf | apply order_same_ids; reflexivity].
    + rewrite cartItems_update. unfold updateQuantity_items.
      apply wf_map_if; [reflexivity | simpl; intros; lia | exact Hwf].
  - intro i. unfold togglePremiumPackaging. rewrite cartItems_update.
    unfold togglePremiumPackaging_items.
    apply wf_map_if; [reflexivity | simpl; intros; assumption | exact Hwf].
  - intro i. apply wf_removeFromCart. exact Hwf.
  - split; constructor.
  - apply (order_filtered _ _ (fun _ => false)).
    simpl. symmetry. apply filter_none. reflexivity.
Qed.

Lemma operations_keep_cart_well_formed_witness :
  let s := addToCart stitch (addToCart elsa fresh) in
  cart_wf (cartItems (addToCart elsa s)) /\
  cart_wf (cartItems (updateQuantity "card-1" 0 s)) /\
  cart_wf (cartItems (togglePremiumPackaging "card-2" s)) /\
  order_preserved (cartItems s) (cartItems (removeFromCart "card-1" s)) /\
  cart_wf (cartItems (clearCart s)).
Proof.
  intro s.
  assert (Hwf : cart_wf (cartItems s)).
  { split.
    - repeat constructor; vm_compute; discriminate.
    - repeat constructor; simpl; intuition discriminate. }
  destruct (operations_keep_cart_well_formed s Hwf)
    as (Hadd & Hupd & Htog & Hrem & Hclr).
  split; [apply Hadd|].
  split; [apply Hupd|].
  split; [apply Htog|].
  split; [apply Hrem | apply Hclr].
Defined.

(** ** Toggling premium packaging *)

Lemma toggle_item_twice (i : string) (item : LineItem) :
  (fun item => if same_id i item
               then with_premiumPackaging item (negb (premiumPackaging item))
               else item)
    (if same_id i item
     then with_premiumPackaging item (negb (premiumPackaging item))
     else item)
  = item.
Proof.
  destruct (same_id i item) eqn:E; cbv beta.
  - unfold same_id in *. simpl. rewrite E.
    destruct item as [a b c d e f]; unfold with_premiumPackaging; simpl.
    rewrite negb_involutive. reflexivity.
  - rewrite E. reflexivity.
Qed.

Lemma toggle_items_twice (i : string) (items : list LineItem) :
  togglePremiumPackaging_items i (togglePremiumPackaging_items i items)
  = items.
Proof.
  unfold togglePremiumPackaging_items. rewrite map_map.
  rewrite <- (map_id items) at 2. apply map_ext.
  intro item. apply toggle_item_twice.
Qed.

(** C7. Toggling premium packaging twice on the same identifier gives back
    the line items as they were, and with them the premium packaging total
    (a committed store comes back whole); one toggle flips the flag of the
    line item that carries the identifier. *)
Theorem toggle_twice_restores :
  forall (i : string) (s : Store),
    cartItems (togglePremiumPackaging i (togglePremiumPackaging i s))
    = cartItems s
    /\ calculatePremiumPackagingTotal
         (togglePremiumPackaging i (togglePremiumPackaging i s))
       = calculatePremiumPackagingTotal s
    /\ (settled s ->
        togglePremiumPackaging i (togglePremiumPackaging i s) = s)
    /\ (forall k item,
           nth_error (cartItems s) k = Some item -> id item = i ->
           nth_error (cartItems (togglePremiumPackaging i s)) k
           = Some (with_premiumPackaging item
                     (negb (premiumPackaging item)))).
Proof.
  intros i s.
  assert (Hitems :
            cartItems (togglePremiumPackaging i (togglePremiumPackaging i s))
            = cartItems s).
  { unfold togglePremiumPackaging. rewrite !cartItems_update.
    apply toggle_items_twice. }
  split; [exact Hitems|]. split; [|split].
  - unfold calculatePremiumPackagingTotal. rewrite Hitems. reflexivity.
  - intro Hs.
    transitivity (saveEffect s); [|apply settled_saveEffect; exact Hs].
    unfold togglePremiumPackaging, update, saveEffect, setCartItems; simpl.
    rewrite !toggle_items_twice. reflexivity.
  - intros k item Hk Hid. unfold togglePremiumPackaging.
    rewrite cartItems_update. unfold togglePremiumPackaging_items.
    rewrite (nth_error_map_if i
               (fun item =>
                  with_premiumPackaging item (negb (premiumPackaging item)))
               _ k item Hk).
    rewrite Hid, String.eqb_refl. reflexivity.
Qed.

Lemma toggle_twice_restores_witness :
  let s := addToCart elsa fresh in
  togglePremiumPackaging "card-1" (togglePremiumPackaging "card-1" s) = s /\
  (exists item,
      nth_error (cartItems (togglePremiumPackaging "card-1" s)) 0 = Some item /\
      premiumPackaging item = true).
Proof.
  intro s.
  destruct (toggle_twice_restores "card-1" s) as (_ & _ & Hback & Hflip).
  split.
  - apply Hback. apply update_settled.
  - exists (with_premiumPackaging (new_item elsa) true). split; [|reflexivity].
    apply (Hflip 0%nat (new_item elsa)); reflexivity.
Defined.

(** ** The tax rate *)

Lemma mount_taxRate (record : option text) (s : Store) :
  mount record = Mounted s -> taxRate s = 0.13%Q.
Proof.
  unfold mount.
  destruct (loadEffect (initial record)) as [[j|]|]; try discriminate.
  - destruct j; try discriminate.
    destruct (items_of_json l); try discriminate.
    intro H; injection H as <-. reflexivity.
  - intro H; injection H as <-. reflexivity.
Qed.

Lemma updateQuantity_taxRate (i : string) (q : Z) (s : Store) :
  taxRate (updateQuantity i q s) = taxRate s.
Proof. unfold updateQuantity. destruct (q <? 1); reflexivity. Qed.

Lemma reachable_taxRate (s : Store) : reachable s -> taxRate s = 0.13%Q.
Proof.
  intro Hs. induction Hs as [record s Hm| | i q s | | | | |];
    try exact IHHs.
  - exact (mount_taxRate record s Hm).
  - rewrite updateQuantity_taxRate. exact IHHs.
Qed.

(** C10. The tax rate is 0.13 in every reachable store: the store mounts
    with it, and none of the operations the context exposes changes it. *)
Theorem taxRate_is_constant :
  (forall s, reachable s -> taxRate s = 0.13%Q)
  /\ (forall card s, taxRate (addToCart card s) = taxRate s)
  /\ (forall i q s, taxRate (updateQuantity i q s) = taxRate s)
  /\ (forall i s, taxRate (togglePremiumPackaging i s) = taxRate s)
  /\ (forall i s, taxRate (removeFromCart i s) = taxRate s)
  /\ (forall s, taxRate (clearCart s) = taxRate s)
  /\ (forall v s, taxRate (updateShipping v s) = taxRate s)
  /\ (forall v s, taxRate (updatePremiumPackPrice v s) = taxRate s)
  /\ (forall s, reachable s ->
        getTaxAmount s = ((cartSubtotal s + shipping s) * 0.13)%Q).
Proof.
  split; [exact reachable_taxRate|].
  repeat (split; [reflexivity || (intros; apply updateQuantity_taxRate)|]).
  intros s Hs. unfold getTaxAmount. cbv zeta.
  rewrite (reachable_taxRate s Hs). reflexivity.
Qed.

Lemma taxRate_is_constant_witness :
  let s := updateShipping 9.99
             (togglePremiumPackaging "card-1" (addToCart elsa fresh)) in
  taxRate s = 0.13%Q /\
  getTaxAmount s = ((cartSubtotal s + shipping s) * 0.13)%Q.
Proof.
  intro s.
  assert (Hs : reachable s).
  { apply reach_updateShipping, reach_togglePremiumPackaging, reach_addToCart.
    apply (reach_mount None). reflexivity. }
  destruct taxRate_is_constant as (Hrate & _ & _ & _ & _ & _ & _ & _ & Htax).
  split; [apply Hrate | apply Htax]; exact Hs.
Defined.

(** ** The durable record, written and read back *)

Lemma parse_value_S (fuel : nat) (ts : text) :
  parse_value (S fuel) ts
  = match skip_space ts with
    | TNull :: r => Some (JNull, r)
    | TTrue :: r => Some (JBool true, r)
    | TFalse :: r => Some (JBool false, r)
    | TNumber q :: r => Some (JNumber q, r)
    | TString s :: r => Some (JString s, r)
    | TLBracket :: r =>
        match skip_space r with
        | TRBracket :: r' => Some (JArray [], r')
        | _ =>
            match parse_elements fuel r with
            | Some (vs, r') => Some (JArray vs, r')
            | None => None
            end
        end
    | TLBrace :: r =>
        match skip_space r with
        | TRBrace :: r' => Some (JObject [], r')
        | _ =>
            match parse_members fuel r with
            | Some (kvs, r') => Some (object_of kvs, r')
            | None => None
            end
        end
    | _ => None
    end.
Proof. reflexivity. Qed.

Lemma parse_elements_S (fuel : nat) (ts : text) :
  parse_elements (S fuel) ts
  = match parse_value fuel ts with
    | Some (v, r) =>
        match skip_space r with
        | TRBracket :: r' => Some ([v], r')
        | TComma :: r' =>
            match parse_elements fuel r' with
            | Some (vs, r'') => Some (v :: vs, r'')
            | None => None
            end
        | _ => None
        end
    | None => None
    end.
Proof. reflexivity. Qed.

Lemma parse_members_S (fuel : nat) (ts : text) :
  parse_members (S fuel) ts
  = match skip_space ts with
    | TString k :: r =>
        match skip_space r with
        | TColon :: r' =>
            match parse_value fuel r' with
            | Some (v, r'') =>
                match skip_space r'' with
                | TRBrace :: r3 => Some ([(k, v)], r3)
                | TComma :: r3 =>
                    match parse_members fuel r3 with
                    | Some (kvs, r4) => Some ((k, v) :: kvs, r4)
                    | None => None
                    end
                | _ => None
                end
            | None => None
            end
        | _ => None
        end
    | _ => None
    end.
Proof. reflexivity. Qed.

Lemma skip_space_length (ts : text) :
  (List.length (skip_space ts) <= List.length ts)%nat.
Proof.
  induction ts as [|t ts IH]; [apply le_n|].
  destruct t; simpl; lia.
Qed.

(** *** Fuel *)

(** The goal asks for a result with at least one unit of fuel. *)
Ltac spend_fuel :=
  let f := fresh "fuel" in
  let H := fresh "Hfuel" in
  intros f H; destruct f as [|f]; [simpl in *; lia|].

Lemma fuel_enough (fuel : nat) :
  enough parse_value fuel /\ enough parse_elements fuel /\
  enough parse_members fuel.
Proof.
  induction fuel as [|fuel (IHv & IHe & IHm)].
  - split; [|split]; intros ts v r H; discriminate H.
  - split; [|split]; intros ts v r H.
    + rewrite parse_value_S in H.
      pose proof (skip_space_length ts) as Hts.
      destruct (skip_space ts) as [|t r0] eqn:E0; [discriminate H|].
      pose proof (skip_space_length r0) as Hr0.
      destruct t; try discriminate H;
        try (injection H as <- <-; (split; [simpl in *; lia|]);
             spend_fuel; rewrite parse_value_S, E0; reflexivity).
      * destruct (skip_space r0) as [|t1 r1] eqn:E1; [|destruct t1].
        all: try (destruct (parse_elements fuel r0) as [[vs r']|] eqn:Ee;
                  [|discriminate H]; apply IHe in Ee; destruct Ee as [Hl Hf]).
        all: injection H as <- <-.
        all: (split; [simpl in *; lia|]).
        all: spend_fuel.
        all: rewrite parse_value_S, E0, E1;
          try rewrite Hf by (simpl in *; lia); reflexivity.
      * destruct (skip_space r0) as [|t1 r1] eqn:E1; [|destruct t1].
        all: try (destruct (parse_members fuel r0) as [[vs r']|] eqn:Ee;
                  [|discriminate H]; apply IHm in Ee; destruct Ee as [Hl Hf]).
        all: injection H as <- <-.
        all: (split; [simpl in *; lia|]).
        all: spend_fuel.
        all: rewrite parse_value_S, E0, E1;
          try rewrite Hf by (simpl in *; lia); reflexivity.
    + rewrite parse_elements_S in H.
      destruct (parse_value fuel ts) as [[v1 r1]|] eqn:Ev; [|discriminate H].
      apply IHv in Ev. destruct Ev as [Hl1 Hf1].
      pose proof (skip_space_length r1) as Hr1.
      destruct (skip_space r1) as [|t2 r2] eqn:E1; [discriminate H|].
      destruct t2; try discriminate H.
      * injection H as <- <-. split; [simpl in *; lia|].
        spend_fuel.
        rewrite parse_elements_S, Hf1 by (simpl in *; lia).
        rewrite E1. reflexivity.
      * destruct (parse_elements fuel r2) as [[vs r']|] eqn:Ee;
          [|discriminate H].
        apply IHe in Ee. destruct Ee as [Hl Hf].
        injection H as <- <-. split; [simpl in *; lia|].
        spend_fuel.
        rewrite parse_elements_S, Hf1 by (simpl in *; lia).
        rewrite E1, Hf by (simpl in *; lia). reflexivity.
    + rewrite parse_members_S in H.
      pose proof (skip_space_length ts) as Hts.
      destruct (skip_space ts) as [|t r0] eqn:E0; [discriminate H|].
      destruct t; try discriminate H.
      pose proof (skip_space_length r0) as Hr0.
      destruct (skip_space r0) as [|t1 r1] eqn:E1; [discriminate H|].
      destruct t1; try discriminate H.
      destruct (parse_value fuel r1) as [[v2 r2]|] eqn:Ev; [|discriminate H].
      apply IHv in Ev. destruct Ev as [Hl1 Hf1].
      pose proof (skip_space_length r2) as Hr2.
      destruct (skip_space r2) as [|t3 r3] eqn:E2; [discriminate H|].
      destruct t3; try discriminate H.
      * injection H as <- <-. split; [simpl in *; lia|].
        spend_fuel.
        rewrite parse_members_S, E0, E1, Hf1 by (simpl in *; lia).
        rewrite E2. reflexivity.
      * destruct (parse_members fuel r3) as [[kvs r']|] eqn:Em;
          [|discriminate H].
        apply IHm in Em. destruct Em as [Hl Hf].
        injection H as <- <-. split; [simpl in *; lia|].
        spend_fuel.
        rewrite parse_members_S, E0, E1, Hf1 by (simpl in *; lia).
        rewrite E2, Hf by (simpl in *; lia). reflexivity.
Qed.

(** A text that parses at all parses with the fuel of [JSON_parse]. *)
Lemma JSON_parse_fuel (fuel : nat) (ts : text) (v : json) (r : text) :
  parse_value fuel ts = Some (v, r) ->
  parse_value (2 * List.length ts + 2) ts = Some (v, r).
Proof.
  intro H. destruct (fuel_enough fuel) as [Hv _].
  destruct (Hv ts v r H) as [_ Hf]. apply Hf. lia.
Qed.

(** So a [SyntaxError] never comes from a lack of fuel. *)
Lemma JSON_parse_none (ts : text) :
  JSON_parse ts = None ->
  forall fuel,
    match parse_value fuel ts with
    | Some (_, r) => skip_space r <> []
    | None => True
    end.
Proof.
  unfold JSON_parse. intros H fuel.
  destruct (parse_value fuel ts) as [[v r]|] eqn:E; [|exact I].
  rewrite (JSON_parse_fuel fuel ts v r E) in H.
  destruct (skip_space r); [discriminate H | discriminate].
Qed.

(** The lexemes of one line item. *)
Lemma stringify_item (item : LineItem) :
  stringify (json_of_item item)
  = [ TLBrace;
      TString "id"; TColon; TString (id item); TComma;
      TString "name"; TColon; TString (name item); TComma;
      TString "image"; TColon; TString (image item); TComma;
      TString "price"; TColon; TNumber (price item); TComma;
      TString "quantity"; TColon; TNumber (inject_Z (quantity item)); TComma;
      TString "premiumPackaging"; TColon;
      (if premiumPackaging item then TTrue else TFalse);
      TRBrace ].
Proof. reflexivity. Qed.

Lemma parse_item (fuel : nat) (item : LineItem) (rest : text) :
  (8 <= fuel)%nat ->
  parse_value fuel (stringify (json_of_item item) ++ rest)
  = Some (json_of_item item, rest).
Proof.
  intro Hfuel.
  do 8 (destruct fuel as [|fuel]; [lia|]).
  rewrite stringify_item.
  destruct item as [i n im p q b]. destruct b; reflexivity.
Qed.

Lemma item_of_json_of_item (item : LineItem) :
  item_of_json (json_of_item item) = Some item.
Proof. destruct item as [i n im p q b]. reflexivity. Qed.

Lemma items_of_json_of_items (items : list LineItem) :
  items_of_json (map json_of_item items) = Some items.
Proof.
  induction items as [|item items IH]; [reflexivity|].
  cbn [map items_of_json].
  rewrite IH, item_of_json_of_item. reflexivity.
Qed.

Lemma items_text_cons (item item' : LineItem) (items : list LineItem) :
  items_text item (item' :: items)
  = stringify (json_of_item item) ++ TComma :: items_text item' items.
Proof. reflexivity. Qed.

Lemma items_text_length (item : LineItem) (items : list LineItem) :
  (List.length items + 25 <= List.length (items_text item items))%nat.
Proof.
  revert item; induction items as [|item' items IH]; intro item.
  - unfold items_text. cbn [map join].
    rewrite stringify_item. simpl. lia.
  - rewrite items_text_cons, length_app, stringify_item.
    specialize (IH item'). simpl in *. lia.
Qed.

Lemma parse_items (items : list LineItem) :
  forall (fuel : nat) (item : LineItem) (rest : text),
    (List.length items + 9 <= fuel)%nat ->
    parse_elements fuel (items_text item items ++ TRBracket :: rest)
    = Some (map json_of_item (item :: items), rest).
Proof.
  induction items as [|item' items IH]; intros fuel item rest Hfuel.
  - destruct fuel as [|fuel]; [simpl in Hfuel; lia|].
    rewrite parse_elements_S.
    unfold items_text. cbn [map join].
    rewrite parse_item by (simpl in Hfuel; lia).
    reflexivity.
  - destruct fuel as [|fuel]; [simpl in Hfuel; lia|].
    rewrite parse_elements_S, items_text_cons, <- app_assoc.
    rewrite parse_item by (simpl in Hfuel; lia).
    simpl skip_space. cbv iota.
    rewrite IH by (simpl in Hfuel; lia).
    reflexivity.
Qed.

Lemma JSON_stringify_cons (item : LineItem) (items : list LineItem) :
  JSON_stringify (item :: items)
  = TLBracket :: TLBrace
      :: tl (items_text item items) ++ [TRBracket].
Proof.
  unfold JSON_stringify. cbn [stringify].
  fold (items_text item items).
  destruct items as [|item' items].
  - unfold items_text. cbn [map join]. rewrite stringify_item.
    reflexivity.
  - rewrite items_text_cons, stringify_item. reflexivity.
Qed.

Lemma items_text_head (item : LineItem) (items : list LineItem) :
  items_text item items = TLBrace :: tl (items_text item items).
Proof.
  destruct items as [|item' items].
  - unfold items_text. cbn [map join]. rewrite stringify_item.
    reflexivity.
  - rewrite items_text_cons, stringify_item. reflexivity.
Qed.

(** Reading back what [JSON.stringify] wrote gives the same array. *)
Lemma JSON_parse_stringify (items : list LineItem) :
  JSON_parse (JSON_stringify items) = Some (JArray (map json_of_item items)).
Proof.
  destruct items as [|item items]; [reflexivity|].
  unfold JSON_parse.
  set (fuel := (2 * List.length (JSON_stringify (item :: items)) + 2)%nat).
  assert (Hfuel : (List.length items + 10 <= fuel)%nat).
  { unfold fuel. rewrite JSON_stringify_cons.
    pose proof (items_text_length item items) as Hlen.
    rewrite items_text_head in Hlen. simpl in *.
    rewrite length_app. simpl. lia. }
  destruct fuel as [|fuel']; [lia|].
  rewrite JSON_stringify_cons, parse_value_S.
  cbn [skip_space].
  rewrite app_comm_cons, <- items_text_head.
  change [TRBracket] with (TRBracket :: @nil token).
  rewrite parse_items by lia.
  reflexivity.
Qed.

Lemma mount_stringify (items : list LineItem) :
  mount (Some (JSON_stringify items))
  = Mounted (saveEffect
               (setCartItems items
                  (saveEffect (initial (Some (JSON_stringify items)))))).
Proof.
  unfold mount, loadEffect.
  change (lorcanaCart (initial (Some (JSON_stringify items))))
    with (Some (JSON_stringify items)).
  destruct (JSON_stringify items) as [|t ts] eqn:E.
  - destruct items; discriminate E.
  - rewrite <- E, JSON_parse_stringify, items_of_json_of_items.
    reflexivity.
Qed.

Lemma mount_settled (record : option text) (s : Store) :
  mount record = Mounted s -> settled s.
Proof.
  unfold mount.
  destruct (loadEffect (initial record)) as [[j|]|]; try discriminate.
  - destruct j; try discriminate.
    destruct (items_of_json l); try discriminate.
    intro H; injection H as <-. apply saveEffect_settled.
  - intro H; injection H as <-. apply saveEffect_settled.
Qed.

Lemma reachable_settled (s : Store) : reachable s -> settled s.
Proof.
  intro Hs. induction Hs as [record s Hm| | i q s | | | | |];
    try apply update_settled; try exact IHHs.
  - exact (mount_settled record s Hm).
  - unfold updateQuantity. destruct (q <? 1);
      [exact IHHs | apply update_settled].
Qed.




(** The sample record is rejected whatever the fuel. *)
Lemma truncated_never_parses (fuel : nat) : parse_value fuel truncated = None.
Proof.
  do 5 (destruct fuel as [|fuel]; [reflexivity|]). reflexivity.
Qed.

(** C2, as stated, fails on a record that [JSON.parse] cannot read: the
    load effect throws, and no store comes up. *)
Lemma malformed_record_throws :
  unreadable (Some truncated) /\
  mount (Some truncated) = Threw SyntaxError /\
  ~ starts_empty (Some truncated).
Proof.
  split; [reflexivity|]. split; [reflexivity|].
  intros (s & H & _). discriminate H.
Qed.

(** C2, amended. With no durable record, or an empty one, the store
    mounts with an empty cart; a record that is not empty and that
    [JSON.parse] cannot read makes the load effect throw a
    [SyntaxError]. *)
Theorem mount_of_record :
  forall record : option text,
    ((record = None \/ record = Some []) -> starts_empty record)
    /\ (forall t ts,
           record = Some (t :: ts) -> JSON_parse (t :: ts) = None ->
           mount record = Threw SyntaxError).
Proof.
  intro record. split.
  - intros [-> | ->]; eexists; split; reflexivity.
  - intros t ts -> Hparse. unfold mount, loadEffect.
    cbn [lorcanaCart initial]. rewrite Hparse. reflexivity.
Qed.

Lemma mount_of_record_witness :
  starts_empty None /\ starts_empty (Some []) /\
  mount (Some truncated) = Threw SyntaxError.
Proof.
  split; [|split].
  - destruct (mount_of_record None) as [H _]. apply H. left; reflexivity.
  - destruct (mount_of_record (Some [])) as [H _]. apply H.
    right; reflexivity.
  - destruct (mount_of_record (Some truncated)) as [_ H].
    apply (H TLBracket (tl truncated)); reflexivity.
Defined.

(** * Further properties of the store and of the pages that use it *)

(** ** Sums *)

Lemma count_fold (items : list LineItem) (a : Z) :
  fold_left (fun total item => total + quantity item) items a
  = a + sum_Z (map quantity items).
Proof.
  revert a; induction items as [|item items IH]; intro a; simpl.
  - lia.
  - rewrite IH. lia.
Qed.

Lemma count_of_sum (items : list LineItem) :
  count_of items = sum_Z (map quantity items).
Proof. unfold count_of. rewrite count_fold. lia. Qed.

Lemma sum_Z_app (l1 l2 : list Z) : sum_Z (l1 ++ l2) = sum_Z l1 + sum_Z l2.
Proof. induction l1 as [|x l1 IH]; simpl; [reflexivity | rewrite IH; lia]. Qed.

Lemma sum_Q_app (l1 l2 : list Q) : (sum_Q (l1 ++ l2) == sum_Q l1 + sum_Q l2)%Q.
Proof. induction l1 as [|x l1 IH]; simpl; [ring | rewrite IH; ring]. Qed.

Lemma subtotal_of_spec (items : list LineItem) :
  (subtotal_of items == spec_subtotal items)%Q.
Proof.
  unfold subtotal_of, spec_subtotal.
  rewrite (fold_left_sum (fun item => price item * inject_Z (quantity item))%Q).
  ring.
Qed.

Lemma count_of_around (l1 l2 : list LineItem) (item : LineItem) :
  count_of (l1 ++ item :: l2) = count_of l1 + quantity item + count_of l2.
Proof.
  rewrite !count_of_sum, map_app, sum_Z_app. simpl. lia.
Qed.

Lemma unique_split (i : string) (items : list LineItem) (item0 : LineItem) :
  NoDup (ids items) -> In item0 items -> id item0 = i ->
  exists l1 l2,
    items = l1 ++ item0 :: l2 /\
    (forall item, In item l1 -> id item <> i) /\
    (forall item, In item l2 -> id item <> i).
Proof.
  intros Hdup Hin Hid.
  destruct (in_split _ _ Hin) as (l1 & l2 & ->).
  exists l1, l2. split; [reflexivity|].
  unfold ids in Hdup. rewrite map_app in Hdup. simpl in Hdup.
  apply NoDup_remove_2 in Hdup. rewrite Hid in Hdup.
  split; intros item Hitem E; apply Hdup, in_or_app;
    [left | right]; rewrite <- E; apply in_map; exact Hitem.
Qed.

Lemma map_if_around (i : string) (g : LineItem -> LineItem)
  (l1 l2 : list LineItem) (item0 : LineItem) :
  id item0 = i ->
  (forall item, In item l1 -> id item <> i) ->
  (forall item, In item l2 -> id item <> i) ->
  map (fun item => if same_id i item then g item else item)
      (l1 ++ item0 :: l2)
  = l1 ++ g item0 :: l2.
Proof.
  intros Hid H1 H2. rewrite map_app. simpl.
  rewrite !map_absent by assumption.
  unfold same_id. rewrite Hid, String.eqb_refl. reflexivity.
Qed.

Lemma find_around (i : string) (l1 l2 : list LineItem) (item0 : LineItem) :
  id item0 = i ->
  (forall item, In item l1 -> id item <> i) ->
  find (same_id i) (l1 ++ item0 :: l2) = Some item0.
Proof.
  intros Hid H1. induction l1 as [|x l1 IH]; simpl.
  - unfold same_id. rewrite Hid, String.eqb_refl. reflexivity.
  - destruct (same_id i x) eqn:E.
    + apply String.eqb_eq in E. destruct (H1 x (or_introl eq_refl) E).
    + apply IH. intros item Hin. apply H1. right; exact Hin.
Qed.

(** ** Removing and clearing *)
Lemma removeFromCart_items_twice (i j : string) (items : list LineItem) :
  removeFromCart_items i (removeFromCart_items j items)
  = removeFromCart_items j (removeFromCart_items i items).
Proof.
  unfold removeFromCart_items.
  induction items as [|item items IH]; simpl; [reflexivity|].
  destruct (same_id j item) eqn:Ej; destruct (same_id i item) eqn:Ei;
    simpl; rewrite ?Ej, ?Ei; simpl; rewrite IH; reflexivity.
Qed.

Lemma removeFromCart_items_idem (i : string) (items : list LineItem) :
  removeFromCart_items i (removeFromCart_items i items)
  = removeFromCart_items i items.
Proof.
  unfold removeFromCart_items. apply filter_all.
  intros item Hin. apply filter_In in Hin. apply Hin.
Qed.

Lemma update_update (f g : list LineItem -> list LineItem) (s : Store) :
  update f (update g s) = update (fun items => f (g items)) s.
Proof. reflexivity. Qed.

Lemma update_ext (f g : list LineItem -> list LineItem) (s : Store) :
  f (cartItems s) = g (cartItems s) -> update f s = update g s.
Proof. unfold update, setCartItems. intros ->. reflexivity. Qed.

Lemma update_same (f : list LineItem -> list LineItem) (s : Store) :
  settled s -> f (cartItems s) = cartItems s -> update f s = s.
Proof.
  intros Hs Hf. rewrite <- (settled_saveEffect s Hs) at 2.
  unfold update, setCartItems. rewrite Hf. reflexivity.
Qed.

(** X1. After [removeFromCart] the cart holds the line items it held whose
    identifier is another; on an identifier no line item carries the items
    stay as they were; removing twice is removing once, and two removals
    commute. *)
Theorem removeFromCart_removes :
  forall (i : string) (s : Store),
    (forall item,
        In item (cartItems (removeFromCart i s))
        <-> In item (cartItems s) /\ id item <> i)
    /\ ((forall item, In item (cartItems s) -> id item <> i) ->
        cartItems (removeFromCart i s) = cartItems s)
    /\ removeFromCart i (removeFromCart i s) = removeFromCart i s
    /\ (forall j,
           removeFromCart i (removeFromCart j s)
           = removeFromCart j (removeFromCart i s)).
Proof.
  intros i s. unfold removeFromCart. split; [|split; [|split]].
  - intro item. rewrite cartItems_update. unfold removeFromCart_items.
    rewrite filter_In. unfold same_id. split.
    + intros [Hin Hne]. split; [exact Hin|]. intro E.
      rewrite E, String.eqb_refl in Hne. discriminate.
    + intros [Hin Hne]. split; [exact Hin|].
      destruct (String.eqb_spec (id item) i); [contradiction | reflexivity].
  - intro Hout. rewrite cartItems_update. apply filter_all.
    intros item Hin. unfold same_id.
    destruct (String.eqb_spec (id item) i) as [E|_]; [|reflexivity].
    destruct (Hout item Hin E).
  - rewrite update_update. apply update_ext. apply removeFromCart_items_idem.
  - intro j. rewrite !update_update. apply update_ext.
    apply removeFromCart_items_twice.
Qed.

Lemma removeFromCart_removes_witness :
  cartItems (removeFromCart "card-2" (addToCart elsa fresh))
  = cartItems (addToCart elsa fresh).
Proof.
  destruct (removeFromCart_removes "card-2" (addToCart elsa fresh))
    as (_ & H & _).
  apply H. intros item [<- | []]. vm_compute. discriminate.
Defined.

Lemma remove_after_add_items (card : Card) (items : list LineItem) :
  removeFromCart_items (_id card) (addToCart_items card items)
  = removeFromCart_items (_id card) items.
Proof.
  unfold addToCart_items, removeFromCart_items.
  destruct (find (same_id (_id card)) items) as [found|].
  - induction items as [|item items IH]; simpl; [reflexivity|].
    destruct (same_id (_id card) item) eqn:E; simpl.
    + unfold same_id in *. simpl. rewrite E. simpl. exact IH.
    + rewrite E. simpl. rewrite IH. reflexivity.
  - rewrite filter_app. simpl. unfold same_id at 2. simpl.
    rewrite String.eqb_refl. simpl. apply app_nil_r.
Qed.

(** X2. Removing a card after adding it gives the store that removing it
    alone gives; for a card that was not in the cart the items are as
    before the add, and a committed store comes back whole. *)
Theorem remove_forgets_add :
  forall (card : Card) (s : Store),
    removeFromCart (_id card) (addToCart card s)
    = removeFromCart (_id card) s
    /\ ((forall item, In item (cartItems s) -> id item <> _id card) ->
        cartItems (removeFromCart (_id card) (addToCart card s))
        = cartItems s
        /\ (settled s ->
            removeFromCart (_id card) (addToCart card s) = s)).
Proof.
  intros card s.
  assert (H : removeFromCart (_id card) (addToCart card s)
              = removeFromCart (_id card) s).
  { unfold removeFromCart, addToCart. rewrite update_update.
    apply update_ext. apply remove_after_add_items. }
  split; [exact H|]. intro Hout. rewrite H.
  assert (Hsame : removeFromCart_items (_id card) (cartItems s) = cartItems s).
  { apply filter_all. intros item Hin. unfold same_id.
    destruct (String.eqb_spec (id item) (_id card)) as [E|_]; [|reflexivity].
    destruct (Hout item Hin E). }
  split.
  - unfold removeFromCart. rewrite cartItems_update. exact Hsame.
  - intro Hs. apply update_same; assumption.
Qed.

Lemma remove_forgets_add_witness :
  removeFromCart "card-2" (addToCart stitch (addToCart elsa fresh))
  = addToCart elsa fresh.
Proof.
  destruct (remove_forgets_add stitch (addToCart elsa fresh)) as [_ H].
  destruct H as [_ H].
  - intros item [<- | []]. vm_compute. discriminate.
  - apply H. apply update_settled.
Defined.

(** X3. Removing the only line item leaves no items, count 0, subtotal 0 and
    the record of the empty array, from which the next session starts
    empty; it is the store [clearCart] gives. *)
Theorem removing_only_item_empties :
  forall (s : Store) (item : LineItem),
    cartItems s = [item] ->
    let s' := removeFromCart (id item) s in
    cartItems s' = [] /\ cartCount s' = 0 /\ cartSubtotal s' = 0%Q /\
    lorcanaCart s' = Some [TLBracket; TRBracket] /\
    starts_empty (lorcanaCart s') /\
    s' = clearCart s.
Proof.
  intros s item Hs s'.
  assert (Hitems : removeFromCart_items (id item) (cartItems s) = []).
  { rewrite Hs. unfold removeFromCart_items, same_id. simpl.
    rewrite String.eqb_refl. reflexivity. }
  assert (Hclear : s' = clearCart s).
  { unfold s', removeFromCart, clearCart. apply update_ext. exact Hitems. }
  rewrite Hclear. repeat split.
  eexists. split; reflexivity.
Qed.

Lemma removing_only_item_empties_witness :
  cartCount (removeFromCart "card-1" (addToCart elsa (addToCart elsa fresh)))
  = 0.
Proof.
  destruct (removing_only_item_empties
              (addToCart elsa (addToCart elsa fresh))
              (with_quantity (new_item elsa) 2)) as (_ & H & _).
  - reflexivity.
  - exact H.
Defined.

(** X4. [clearCart] leaves no items, count 0, subtotal 0, no premium packaging
    and the record of the empty array; shipping and premium unit price stay,
    so the total that remains is [calculateTotal] on a subtotal of 0 and a
    premium packaging total of 0: shipping and the tax on it.  Clearing
    forgets every cart operation made before it. *)
Theorem clearCart_empties :
  forall s : Store,
    cartItems (clearCart s) = [] /\ cartCount (clearCart s) = 0 /\
    cartSubtotal (clearCart s) = 0%Q /\
    calculatePremiumPackagingTotal (clearCart s) = 0%Q /\
    lorcanaCart (clearCart s) = Some [TLBracket; TRBracket] /\
    shipping (clearCart s) = shipping s /\
    premiumPackPrice (clearCart s) = premiumPackPrice s /\
    calculateTotal (clearCart s)
    = (0 + shipping s + 0 + (0 + shipping s) * taxRate s)%Q /\
    (forall card, clearCart (addToCart card s) = clearCart s) /\
    (forall i q, clearCart (updateQuantity i q s) = clearCart s) /\
    (forall i, clearCart (togglePremiumPackaging i s) = clearCart s) /\
    (forall i, clearCart (removeFromCart i s) = clearCart s) /\
    clearCart (clearCart s) = clearCart s.
Proof.
  intro s. do 9 (split; [reflexivity|]).
  split; [intros i q; unfold updateQuantity; destruct (q <? 1); reflexivity|].
  repeat split.
Qed.

(** ** Count and subtotal after an operation *)
Lemma count_of_app (l1 l2 : list LineItem) :
  count_of (l1 ++ l2) = count_of l1 + count_of l2.
Proof. rewrite !count_of_sum, map_app, sum_Z_app. reflexivity. Qed.

Lemma subtotal_of_app (l1 l2 : list LineItem) :
  (subtotal_of (l1 ++ l2) == subtotal_of l1 + subtotal_of l2)%Q.
Proof.
  rewrite !subtotal_of_spec. unfold spec_subtotal.
  rewrite map_app, sum_Q_app. reflexivity.
Qed.

Lemma find_present (i : string) (items : list LineItem) (found : LineItem) :
  find (same_id i) items = Some found -> In found items /\ id found = i.
Proof.
  intro H. apply find_some in H. destruct H as [Hin E].
  split; [exact Hin | apply String.eqb_eq; exact E].
Qed.

(** X5. In a committed store with distinct identifiers, [addToCart] raises the
    count by exactly 1.  When the card is in the cart already, its line
    item keeps the name, the image and the price it was added with,
    whatever the catalog says now, and only its quantity changes. *)
Theorem addToCart_counts_one_more :
  forall (card : Card) (s : Store),
    settled s -> NoDup (ids (cartItems s)) ->
    cartCount (addToCart card s) = cartCount s + 1 /\
    (forall item0,
        In item0 (cartItems s) -> id item0 = _id card ->
        In (with_quantity item0 (quantity item0 + 1))
           (cartItems (addToCart card s)) /\
        forall item,
          In item (cartItems (addToCart card s)) -> id item = _id card ->
          price item = price item0 /\ name item = name item0 /\
          image item = image item0).
Proof.
  intros card s (Hcount & _ & _) Hdup. split.
  - rewrite Hcount. unfold addToCart, update. simpl.
    unfold addToCart_items.
    destruct (find (same_id (_id card)) (cartItems s)) as [found|] eqn:E.
    + destruct (find_present _ _ _ E) as [Hin Hid].
      destruct (unique_split _ _ _ Hdup Hin Hid)
        as (l1 & l2 & -> & Hl1 & Hl2).
      rewrite (map_if_around (_id card)
                 (fun item => with_quantity item (quantity item + 1)))
        by assumption.
      rewrite !count_of_around. simpl. lia.
    + rewrite count_of_app. unfold count_of at 2. simpl. lia.
  - intros item0 Hin Hid. unfold addToCart. rewrite cartItems_update.
    destruct (unique_split _ _ _ Hdup Hin Hid) as (l1 & l2 & E & Hl1 & Hl2).
    rewrite E. unfold addToCart_items.
    rewrite (find_around _ l1 l2 item0 Hid Hl1).
    rewrite (map_if_around (_id card)
               (fun item => with_quantity item (quantity item + 1)))
      by assumption.
    split; [apply in_or_app; right; left; reflexivity|].
    intros item Hitem Hitem_id. apply in_app_or in Hitem.
    destruct Hitem as [H | [<- | H]].
    + destruct (Hl1 item H Hitem_id).
    + repeat split.
    + destruct (Hl2 item H Hitem_id).
Qed.

Lemma addToCart_counts_one_more_witness :
  cartCount (addToCart elsa (addToCart elsa fresh)) = 2 /\
  In (with_quantity (new_item elsa) 2)
     (cartItems (addToCart elsa (addToCart elsa fresh))).
Proof.
  destruct (addToCart_counts_one_more elsa (addToCart elsa fresh))
    as [Hc Hl].
  - apply update_settled.
  - repeat constructor. intros [].
  - split; [exact Hc|].
    destruct (Hl (new_item elsa)) as [Hin _].
    + left; reflexivity.
    + reflexivity.
    + exact Hin.
Defined.

(** X6. In a cart with distinct identifiers, adding a card that is in the
    cart is [updateQuantity] of its line item to one more. *)
Theorem addToCart_again_is_one_more :
  forall (card : Card) (s : Store) (item0 : LineItem),
    NoDup (ids (cartItems s)) ->
    In item0 (cartItems s) -> id item0 = _id card ->
    0 <= quantity item0 ->
    addToCart card s = updateQuantity (_id card) (quantity item0 + 1) s.
Proof.
  intros card s item0 Hdup Hin Hid Hq.
  unfold updateQuantity. destruct (Z.ltb_spec (quantity item0 + 1) 1); [lia|].
  unfold addToCart. apply update_ext.
  destruct (unique_split _ _ _ Hdup Hin Hid) as (l1 & l2 & E & H1 & H2).
  rewrite E. unfold addToCart_items, updateQuantity_items.
  rewrite (find_around _ l1 l2 item0 Hid H1).
  rewrite !map_if_around by assumption. reflexivity.
Qed.

Lemma addToCart_again_is_one_more_witness :
  addToCart elsa (addToCart elsa fresh)
  = updateQuantity "card-1" 2 (addToCart elsa fresh).
Proof.
  apply (addToCart_again_is_one_more elsa (addToCart elsa fresh)
           (new_item elsa)).
  - repeat constructor. intros [].
  - left; reflexivity.
  - reflexivity.
  - simpl. lia.
Defined.

Lemma updateQuantity_count (i : string) (q : Z) (s : Store)
  (item0 : LineItem) :
  settled s -> NoDup (ids (cartItems s)) ->
  In item0 (cartItems s) -> id item0 = i -> 1 <= q ->
  cartCount (updateQuantity i q s) = cartCount s - quantity item0 + q /\
  In (with_quantity item0 q) (cartItems (updateQuantity i q s)).
Proof.
  intros (Hcount & _ & _) Hdup Hin Hid Hq.
  rewrite Hcount. unfold updateQuantity.
  destruct (Z.ltb_spec q 1); [lia|].
  unfold update. simpl. unfold updateQuantity_items.
  destruct (unique_split _ _ _ Hdup Hin Hid) as (l1 & l2 & -> & Hl1 & Hl2).
  rewrite (map_if_around i (fun item => with_quantity item q)) by assumption.
  rewrite !count_of_around. simpl. split; [lia|].
  apply in_or_app. right; left; reflexivity.
Qed.

(** X7. In a committed store with distinct identifiers, [updateQuantity] to
    a quantity of at least 1 moves the count by the change of the
    quantity, and the line item is in the cart with the new quantity and
    everything else as it was. *)
Theorem updateQuantity_adjusts_totals :
  forall (i : string) (q : Z) (s : Store) (item0 : LineItem),
    settled s -> NoDup (ids (cartItems s)) ->
    In item0 (cartItems s) -> id item0 = i -> 1 <= q ->
    cartCount (updateQuantity i q s) = cartCount s - quantity item0 + q /\
    In (with_quantity item0 q) (cartItems (updateQuantity i q s)).
Proof. exact updateQuantity_count. Qed.

Lemma updateQuantity_adjusts_totals_witness :
  cartCount (updateQuantity "card-1" 5 (addToCart elsa fresh)) = 5.
Proof.
  destruct (updateQuantity_adjusts_totals "card-1" 5 (addToCart elsa fresh)
              (new_item elsa)) as [H _].
  - apply update_settled.
  - repeat constructor. intros [].
  - left; reflexivity.
  - reflexivity.
  - lia.
  - exact H.
Defined.

(** ** What a toggle leaves and what it moves *)
Lemma fold_left_map_ext (A B : Type) (f : A -> LineItem -> A)
  (g : LineItem -> LineItem) (items : list LineItem) (a : A) :
  (forall a item, f a (g item) = f a item) ->
  fold_left f (map g items) a = fold_left f items a.
Proof.
  intro H. revert a; induction items as [|item items IH]; intro a; simpl.
  - reflexivity.
  - rewrite H. apply IH.
Qed.

Lemma toggle_keeps_count (i : string) (items : list LineItem) :
  count_of (togglePremiumPackaging_items i items) = count_of items.
Proof.
  unfold count_of, togglePremiumPackaging_items.
  apply (fold_left_map_ext Z Z). intros a item.
  destruct (same_id i item); reflexivity.
Qed.

Lemma toggle_keeps_subtotal (i : string) (items : list LineItem) :
  subtotal_of (togglePremiumPackaging_items i items) = subtotal_of items.
Proof.
  unfold subtotal_of, togglePremiumPackaging_items.
  apply (fold_left_map_ext Q Q). intros a item.
  destruct (same_id i item); reflexivity.
Qed.

Lemma premium_of_spec (s : Store) :
  (calculatePremiumPackagingTotal s
   == spec_premiumPackagingTotal (premiumPackPrice s) (cartItems s))%Q.
Proof.
  unfold calculatePremiumPackagingTotal. rewrite premium_fold. ring.
Qed.

Lemma spec_premium_around (unit : Q) (l1 l2 : list LineItem)
  (item : LineItem) :
  (spec_premiumPackagingTotal unit (l1 ++ item :: l2)
   == spec_premiumPackagingTotal unit l1
      + (if premiumPackaging item
         then unit * inject_Z (quantity item) else 0)
      + spec_premiumPackagingTotal unit l2)%Q.
Proof.
  unfold spec_premiumPackagingTotal.
  rewrite filter_app, map_app, sum_Q_app. simpl.
  destruct (premiumPackaging item); simpl; ring.
Qed.

Lemma premium_fold_none (unit : Q) (items : list LineItem) (a : Q) :
  existsb premiumPackaging items = false ->
  fold_left
    (fun total item =>
       if premiumPackaging item
       then (total + unit * inject_Z (quantity item))%Q else total)
    items a
  = a.
Proof.
  revert a; induction items as [|item items IH]; intros a H; simpl in *.
  - reflexivity.
  - destruct (premiumPackaging item); [discriminate H|]. apply IH. exact H.
Qed.

Lemma toggle_premium_shift (i : string) (s : Store) (item0 : LineItem) :
  NoDup (ids (cartItems s)) -> In item0 (cartItems s) -> id item0 = i ->
  (calculatePremiumPackagingTotal (togglePremiumPackaging i s)
   == calculatePremiumPackagingTotal s
      + (if premiumPackaging item0 then - 1 else 1)
        * (premiumPackPrice s * inject_Z (quantity item0)))%Q.
Proof.
  intros Hdup Hin Hid. rewrite !premium_of_spec.
  change (premiumPackPrice (togglePremiumPackaging i s))
    with (premiumPackPrice s).
  unfold togglePremiumPackaging. rewrite cartItems_update.
  unfold togglePremiumPackaging_items.
  destruct (unique_split _ _ _ Hdup Hin Hid) as (l1 & l2 & -> & Hl1 & Hl2).
  rewrite (map_if_around i
             (fun item =>
                with_premiumPackaging item (negb (premiumPackaging item))))
    by assumption.
  rewrite !spec_premium_around. simpl.
  destruct (premiumPackaging item0); simpl; ring.
Qed.

(** X8. [togglePremiumPackaging] leaves count, subtotal and tax as they
    were.  In a cart with distinct identifiers, with a premium unit price
    and a quantity that are not negative, switching the flag on does not
    lower the premium packaging total or the total, and switching it off
    does not raise them. *)
Theorem toggle_moves_only_packaging :
  forall (i : string) (s : Store),
    settled s ->
    cartCount (togglePremiumPackaging i s) = cartCount s /\
    cartSubtotal (togglePremiumPackaging i s) = cartSubtotal s /\
    getTaxAmount (togglePremiumPackaging i s) = getTaxAmount s /\
    (forall item0,
        NoDup (ids (cartItems s)) -> In item0 (cartItems s) ->
        id item0 = i ->
        (0 <= premiumPackPrice s)%Q -> 0 <= quantity item0 ->
        if premiumPackaging item0
        then
          (calculatePremiumPackagingTotal (togglePremiumPackaging i s)
           <= calculatePremiumPackagingTotal s)%Q /\
          (calculateTotal (togglePremiumPackaging i s)
           <= calculateTotal s)%Q
        else
          (calculatePremiumPackagingTotal s
           <= calculatePremiumPackagingTotal (togglePremiumPackaging i s))%Q
          /\
          (calculateTotal s
           <= calculateTotal (togglePremiumPackaging i s))%Q).
Proof.
  intros i s (Hcount & Hsub & _).
  assert (Hc : cartCount (togglePremiumPackaging i s) = cartCount s).
  { rewrite Hcount. apply toggle_keeps_count. }
  assert (Hs : cartSubtotal (togglePremiumPackaging i s) = cartSubtotal s).
  { rewrite Hsub. apply toggle_keeps_subtotal. }
  split; [exact Hc|]. split; [exact Hs|]. split.
  { unfold getTaxAmount. cbv zeta. rewrite Hs. reflexivity. }
  intros item0 Hdup Hin Hid Hunit Hq.
  pose proof (toggle_premium_shift i s item0 Hdup Hin Hid) as Hp.
  assert (Hsur : (0 <= premiumPackPrice s * inject_Z (quantity item0))%Q).
  { apply Qmult_le_0_compat; [exact Hunit|]. unfold Qle; simpl. lia. }
  unfold calculateTotal. cbv zeta. rewrite Hs.
  change (shipping (togglePremiumPackaging i s)) with (shipping s).
  change (taxRate (togglePremiumPackaging i s)) with (taxRate s).
  set (after := calculatePremiumPackagingTotal (togglePremiumPackaging i s))
    in *.
  set (before := calculatePremiumPackagingTotal s) in *.
  set (surcharge := (premiumPackPrice s * inject_Z (quantity item0))%Q) in *.
  set (tax := ((cartSubtotal s + shipping s) * taxRate s)%Q).
  destruct (premiumPackaging item0); split; lra.
Qed.

Lemma toggle_moves_only_packaging_witness :
  let s := addToCart elsa (addToCart elsa fresh) in
  getTaxAmount (togglePremiumPackaging "card-1" s) = getTaxAmount s /\
  (calculateTotal s <= calculateTotal (togglePremiumPackaging "card-1" s))%Q.
Proof.
  intro s.
  destruct (toggle_moves_only_packaging "card-1" s) as (_ & _ & Htax & H).
  - apply update_settled.
  - split; [exact Htax|].
    pose proof (H (with_quantity (new_item elsa) 2)) as Ht.
    cbn [premiumPackaging with_quantity new_item] in Ht.
    apply Ht.
    + repeat constructor. intros [].
    + left; reflexivity.
    + reflexivity.
    + vm_compute. discriminate.
    + simpl. lia.
Defined.

(** ** The pricing setters *)
(** X9. [updateShipping] and [updatePremiumPackPrice] leave the items, the
    count, the subtotal and the durable record alone (and each the other's
    parameter); they commute with every cart operation and with each other,
    and the last value set is the one that stays. *)
Theorem pricing_setters_leave_cart :
  forall (v : Q) (s : Store),
    (cartItems (updateShipping v s) = cartItems s /\
     cartCount (updateShipping v s) = cartCount s /\
     cartSubtotal (updateShipping v s) = cartSubtotal s /\
     lorcanaCart (updateShipping v s) = lorcanaCart s /\
     premiumPackPrice (updateShipping v s) = premiumPackPrice s /\
     calculatePremiumPackagingTotal (updateShipping v s)
     = calculatePremiumPackagingTotal s)
    /\
    (cartItems (updatePremiumPackPrice v s) = cartItems s /\
     cartCount (updatePremiumPackPrice v s) = cartCount s /\
     cartSubtotal (updatePremiumPackPrice v s) = cartSubtotal s /\
     lorcanaCart (updatePremiumPackPrice v s) = lorcanaCart s /\
     shipping (updatePremiumPackPrice v s) = shipping s /\
     getTaxAmount (updatePremiumPackPrice v s) = getTaxAmount s)
    /\
    (forall card,
        updateShipping v (addToCart card s)
        = addToCart card (updateShipping v s) /\
        updatePremiumPackPrice v (addToCart card s)
        = addToCart card (updatePremiumPackPrice v s))
    /\
    (forall i q,
        updateShipping v (updateQuantity i q s)
        = updateQuantity i q (updateShipping v s) /\
        updatePremiumPackPrice v (updateQuantity i q s)
        = updateQuantity i q (updatePremiumPackPrice v s))
    /\
    (forall i,
        updateShipping v (togglePremiumPackaging i s)
        = togglePremiumPackaging i (updateShipping v s) /\
        updatePremiumPackPrice v (togglePremiumPackaging i s)
        = togglePremiumPackaging i (updatePremiumPackPrice v s))
    /\
    (forall i,
        updateShipping v (removeFromCart i s)
        = removeFromCart i (updateShipping v s) /\
        updatePremiumPackPrice v (removeFromCart i s)
        = removeFromCart i (updatePremiumPackPrice v s))
    /\
    (updateShipping v (clearCart s) = clearCart (updateShipping v s) /\
     updatePremiumPackPrice v (clearCart s)
     = clearCart (updatePremiumPackPrice v s))
    /\
    (forall w,
        updateShipping v (updateShipping w s) = updateShipping v s /\
        updatePremiumPackPrice v (updatePremiumPackPrice w s)
        = updatePremiumPackPrice v s /\
        updateShipping v (updatePremiumPackPrice w s)
        = updatePremiumPackPrice w (updateShipping v s)).
Proof.
  intros v s.
  split; [repeat split|]. split; [repeat split|].
  split; [intro; split; reflexivity|].
  split; [intros i q; unfold updateQuantity; destruct (q <? 1);
          split; reflexivity|].
  split; [intro; split; reflexivity|].
  split; [intro; split; reflexivity|].
  split; [split; reflexivity|].
  intro w. repeat split.
Qed.

Lemma spec_premium_scales (unit : Q) (items : list LineItem) :
  (spec_premiumPackagingTotal unit items
   == unit * inject_Z (flagged_quantity items))%Q.
Proof.
  unfold spec_premiumPackagingTotal, flagged_quantity.
  induction (filter premiumPackaging items) as [|item l IH]; simpl.
  - ring.
  - rewrite IH, inject_Z_plus. ring.
Qed.

Lemma flagged_quantity_nonneg (items : list LineItem) :
  Forall (fun item => 0 <= quantity item) items ->
  0 <= flagged_quantity items.
Proof.
  unfold flagged_quantity. intro H.
  induction H as [|item items Hq _ IH]; simpl; [lia|].
  destruct (premiumPackaging item); simpl; lia.
Qed.

(** X10. With a rate that is not negative, a higher shipping cost never
    lowers the tax or the total; with quantities that are not negative, a
    higher premium unit price never lowers the premium packaging total or
    the total; and while no line item has premium packaging, the premium
    unit price does not enter the total at all. *)
Theorem pricing_setters_are_monotone :
  forall (v : Q) (s : Store),
    ((0 <= taxRate s)%Q -> (shipping s <= v)%Q ->
     (getTaxAmount s <= getTaxAmount (updateShipping v s))%Q /\
     (calculateTotal s <= calculateTotal (updateShipping v s))%Q)
    /\
    (Forall (fun item => 0 <= quantity item) (cartItems s) ->
     (premiumPackPrice s <= v)%Q ->
     (calculatePremiumPackagingTotal s
      <= calculatePremiumPackagingTotal (updatePremiumPackPrice v s))%Q /\
     (calculateTotal s <= calculateTotal (updatePremiumPackPrice v s))%Q)
    /\
    (existsb premiumPackaging (cartItems s) = false ->
     calculatePremiumPackagingTotal (updatePremiumPackPrice v s) = 0%Q /\
     calculateTotal (updatePremiumPackPrice v s) = calculateTotal s).
Proof.
  intros v s. split; [|split].
  - intros Hrate Hv.
    assert (Htax : (getTaxAmount s <= getTaxAmount (updateShipping v s))%Q).
    { unfold getTaxAmount. cbv zeta.
      change (cartSubtotal (updateShipping v s)) with (cartSubtotal s).
      change (shipping (updateShipping v s)) with v.
      change (taxRate (updateShipping v s)) with (taxRate s).
      apply Qmult_le_compat_r; [lra | exact Hrate]. }
    split; [exact Htax|].
    unfold getTaxAmount in Htax. cbv zeta in Htax.
    unfold calculateTotal. cbv zeta.
    change (calculatePremiumPackagingTotal (updateShipping v s))
      with (calculatePremiumPackagingTotal s).
    change (cartSubtotal (updateShipping v s)) with (cartSubtotal s) in *.
    change (shipping (updateShipping v s)) with v in *.
    change (taxRate (updateShipping v s)) with (taxRate s) in *.
    set (t0 := ((cartSubtotal s + shipping s) * taxRate s)%Q) in *.
    set (t1 := ((cartSubtotal s + v) * taxRate s)%Q) in *.
    lra.
  - intros Hq Hv.
    assert (Hp : (calculatePremiumPackagingTotal s
                  <= calculatePremiumPackagingTotal
                       (updatePremiumPackPrice v s))%Q).
    { rewrite !premium_of_spec, !spec_premium_scales.
      change (premiumPackPrice (updatePremiumPackPrice v s)) with v.
      change (cartItems (updatePremiumPackPrice v s)) with (cartItems s).
      apply Qmult_le_compat_r; [exact Hv|].
      pose proof (flagged_quantity_nonneg _ Hq).
      unfold Qle; simpl. lia. }
    split; [exact Hp|].
    unfold calculateTotal. cbv zeta.
    change (cartSubtotal (updatePremiumPackPrice v s)) with (cartSubtotal s).
    change (shipping (updatePremiumPackPrice v s)) with (shipping s).
    change (taxRate (updatePremiumPackPrice v s)) with (taxRate s).
    set (p0 := calculatePremiumPackagingTotal s) in *.
    set (p1 := calculatePremiumPackagingTotal (updatePremiumPackPrice v s))
      in *.
    set (t := ((cartSubtotal s + shipping s) * taxRate s)%Q).
    lra.
  - intro Hnone.
    assert (H1 : calculatePremiumPackagingTotal (updatePremiumPackPrice v s)
                 = 0%Q).
    { unfold calculatePremiumPackagingTotal. apply premium_fold_none.
      exact Hnone. }
    assert (H0 : calculatePremiumPackagingTotal s = 0%Q).
    { unfold calculatePremiumPackagingTotal. apply premium_fold_none.
      exact Hnone. }
    split; [exact H1|].
    unfold calculateTotal. cbv zeta. rewrite H1, H0. reflexivity.
Qed.

Lemma pricing_setters_are_monotone_witness :
  let s := togglePremiumPackaging "card-1" (addToCart elsa fresh) in
  (calculateTotal s <= calculateTotal (updateShipping 12.99 s))%Q /\
  (calculateTotal s <= calculateTotal (updatePremiumPackPrice 24.99 s))%Q /\
  calculateTotal (updatePremiumPackPrice 24.99 (addToCart elsa fresh))
  = calculateTotal (addToCart elsa fresh).
Proof.
  intro s. split; [|split].
  - destruct (pricing_setters_are_monotone 12.99 s) as [H _].
    apply H; vm_compute; discriminate.
  - destruct (pricing_setters_are_monotone 24.99 s) as (_ & H & _).
    apply H; [|vm_compute; discriminate].
    repeat constructor. simpl. lia.
  - destruct (pricing_setters_are_monotone 24.99 (addToCart elsa fresh))
      as (_ & _ & H).
    apply H. reflexivity.
Defined.

(** ** Invariants of the store *)
(** X11. In every reachable store the count is the sum of the quantities, the
    subtotal the sum of price times quantity, and the durable record the
    text of the items, which [JSON.parse] reads back. *)
Theorem reachable_store_in_sync :
  forall s : Store,
    reachable s ->
    cartCount s = sum_Z (map quantity (cartItems s)) /\
    (cartSubtotal s == spec_subtotal (cartItems s))%Q /\
    lorcanaCart s = Some (JSON_stringify (cartItems s)) /\
    JSON_parse (JSON_stringify (cartItems s))
    = Some (JArray (map json_of_item (cartItems s))).
Proof.
  intros s Hs. destruct (reachable_settled s Hs) as (Hcount & Hsub & Hrec).
  split; [rewrite Hcount; apply count_of_sum|].
  split; [rewrite Hsub; apply subtotal_of_spec|].
  split; [exact Hrec | apply JSON_parse_stringify].
Qed.

Lemma reachable_store_in_sync_witness :
  cartCount (removeFromCart "card-2"
               (addToCart stitch (addToCart elsa (addToCart elsa fresh))))
  = 2.
Proof.
  destruct (reachable_store_in_sync
              (removeFromCart "card-2"
                 (addToCart stitch (addToCart elsa (addToCart elsa fresh)))))
    as [H _].
  - apply reach_removeFromCart. do 3 apply reach_addToCart.
    apply (reach_mount None). reflexivity.
  - exact H.
Defined.

Lemma count_covers_lines (items : list LineItem) :
  Forall (fun item => 1 <= quantity item) items ->
  Z.of_nat (List.length items) <= count_of items.
Proof.
  intro H. rewrite count_of_sum.
  induction H as [|item items Hq _ IH].
  - simpl. lia.
  - change (sum_Z (map quantity (item :: items)))
      with (quantity item + sum_Z (map quantity items)).
    change (List.length (item :: items)) with (S (List.length items)).
    rewrite Nat2Z.inj_succ. lia.
Qed.

Lemma wf_updateQuantity (i : string) (q : Z) (s : Store) :
  cart_wf (cartItems s) -> cart_wf (cartItems (updateQuantity i q s)).
Proof.
  intro Hwf. unfold updateQuantity. destruct (Z.ltb_spec q 1); [exact Hwf|].
  rewrite cartItems_update.
  apply wf_map_if; [reflexivity | simpl; intros; lia | exact Hwf].
Qed.

Lemma wf_toggle (i : string) (s : Store) :
  cart_wf (cartItems s) -> cart_wf (cartItems (togglePremiumPackaging i s)).
Proof.
  intro Hwf. unfold togglePremiumPackaging. rewrite cartItems_update.
  apply wf_map_if; [reflexivity | simpl; intros; assumption | exact Hwf].
Qed.

Lemma lives_wf_settled (s : Store) :
  lives s -> cart_wf (cartItems s) /\ settled s.
Proof.
  intro Hs. induction Hs as [|s s' _ [Hwf Hset] Hm| | | | | | |];
    try destruct IHHs as [Hwf Hset].
  - split; [split; constructor | apply saveEffect_settled].
  - destruct Hset as (_ & _ & Hrec).
    rewrite Hrec, mount_stringify in Hm. injection Hm as <-.
    split; [exact Hwf | apply saveEffect_settled].
  - split; [apply wf_addToCart; exact Hwf | apply update_settled].
  - split; [apply wf_updateQuantity; exact Hwf|].
    unfold updateQuantity. destruct (q <? 1);
      [exact Hset | apply update_settled].
  - split; [apply wf_toggle; exact Hwf | apply update_settled].
  - split; [apply wf_removeFromCart; exact Hwf | apply update_settled].
  - split; [split; constructor | apply update_settled].
  - split; [exact Hwf | exact Hset].
  - split; [exact Hwf | exact Hset].
Qed.

(** X12. From a first visit on, through operations and reloads, the cart
    stays well formed and the store committed; the count is at least the
    number of line items, and it is 0 exactly when the cart is empty. *)
Theorem lives_well_formed :
  forall s : Store,
    lives s ->
    cart_wf (cartItems s) /\
    settled s /\
    Z.of_nat (List.length (cartItems s)) <= cartCount s /\
    (cartCount s = 0 <-> cartItems s = []).
Proof.
  intros s Hs. destruct (lives_wf_settled s Hs) as [Hwf Hset].
  split; [exact Hwf|]. split; [exact Hset|].
  destruct Hset as (Hcount & _ & _). destruct Hwf as [Hq _].
  pose proof (count_covers_lines _ Hq) as Hle. rewrite <- Hcount in Hle.
  split; [exact Hle|]. split.
  - intro Hz. destruct (cartItems s) as [|item items]; [reflexivity|].
    change (List.length (item :: items)) with (S (List.length items)) in Hle.
    rewrite Nat2Z.inj_succ in Hle. lia.
  - intro He. rewrite Hcount, He. reflexivity.
Qed.

Lemma lives_well_formed_witness :
  cart_wf (cartItems (updateQuantity "card-1" 0 (addToCart elsa fresh))).
Proof.
  destruct (lives_well_formed (updateQuantity "card-1" 0 (addToCart elsa fresh)))
    as [H _].
  - apply lives_updateQuantity, lives_addToCart, lives_first_visit.
  - exact H.
Defined.

(** ** Mounting *)
(** X13. Whatever the record, a store that mounts has rate 0.13, shipping
    5.99 and premium unit price 19.99 and is committed; with no record or
    an empty one it leaves the record of the empty array. *)
Theorem mount_starts_from_defaults :
  forall (record : option text) (s : Store),
    mount record = Mounted s ->
    taxRate s = 0.13%Q /\ shipping s = 5.99%Q /\
    premiumPackPrice s = 19.99%Q /\
    settled s /\
    (record = None \/ record = Some [] ->
     lorcanaCart s = Some [TLBracket; TRBracket]).
Proof.
  intros record s Hm.
  assert (Hfields : taxRate s = 0.13%Q /\ shipping s = 5.99%Q /\
                    premiumPackPrice s = 19.99%Q).
  { revert Hm. unfold mount.
    destruct (loadEffect (initial record)) as [[j|]|]; try discriminate.
    - destruct j; try discriminate.
      destruct (items_of_json l); try discriminate.
      intro H; injection H as <-. repeat split.
    - intro H; injection H as <-. repeat split. }
  destruct Hfields as (H1 & H2 & H3).
  repeat (split; [assumption|]).
  split; [exact (mount_settled record s Hm)|].
  intros [-> | ->]; injection Hm as <-; reflexivity.
Qed.

Lemma mount_starts_from_defaults_witness :
  exists s,
    mount (lorcanaCart (updateShipping 9.99 (addToCart elsa fresh)))
    = Mounted s /\
    shipping s = 5.99%Q.
Proof.
  destruct (mount (lorcanaCart (updateShipping 9.99 (addToCart elsa fresh))))
    as [s|e|j] eqn:Hm; [|discriminate Hm|discriminate Hm].
  exists s. split; [reflexivity|].
  destruct (mount_starts_from_defaults _ s Hm) as (_ & H & _). exact H.
Defined.

(** X14. A record that [JSON.parse] reads as anything but an array makes the
    save effect throw a [TypeError]: the value has no [reduce]. *)
Theorem record_without_array_throws :
  forall (ts : text) (j : json),
    JSON_parse ts = Some j ->
    (forall l, j <> JArray l) ->
    mount (Some ts) = Threw TypeError.
Proof.
  intros ts j Hparse Hj.
  destruct ts as [|t ts]; [discriminate Hparse|].
  unfold mount, loadEffect. cbn [lorcanaCart initial]. rewrite Hparse.
  destruct j; try reflexivity. destruct (Hj l eq_refl).
Qed.

Lemma record_without_array_throws_witness :
  mount (Some [TLBrace; TRBrace]) = Threw TypeError.
Proof.
  apply (record_without_array_throws [TLBrace; TRBrace] (JObject [])).
  - reflexivity.
  - discriminate.
Defined.

(** ** The cart page *)
(** X15. After [handleShippingOptionChange] the price
    [getSelectedShippingPrice] shows is the shipping the store charges,
    whatever option was asked for; the items and the durable record are
    untouched.  For an option of the list, both are the price of that
    option. *)
Theorem shipping_shown_is_shipping_charged :
  forall (optionId : string) (page : CartPage) (s : Store),
    let (page', s') := handleShippingOptionChange optionId page s in
    getSelectedShippingPrice page' s' = shipping s' /\
    selectedShippingOption page' = optionId /\
    shippingOptions page' = shippingOptions page /\
    cartItems s' = cartItems s /\
    lorcanaCart s' = lorcanaCart s /\
    (forall opt,
        find (is_option optionId) (shippingOptions page) = Some opt ->
        shipping s' = ShippingOption.price opt /\
        getSelectedShippingPrice page' s' = ShippingOption.price opt /\
        s' = updateShipping (ShippingOption.price opt) s).
Proof.
  intros optionId page s. unfold handleShippingOptionChange.
  destruct (find (is_option optionId) (shippingOptions page)) as [opt|] eqn:E.
  - assert (Hshown :
              getSelectedShippingPrice
                {| shippingOptions := shippingOptions page;
                   selectedShippingOption := optionId |}
                (updateShipping (ShippingOption.price opt) s)
              = ShippingOption.price opt).
    { unfold getSelectedShippingPrice.
      cbn [selectedShippingOption shippingOptions]. rewrite E.
      destruct (String.eqb optionId "" ||
                Nat.eqb (List.length (shippingOptions page)) 0)%bool;
        reflexivity. }
    split; [exact Hshown|]. do 4 (split; [reflexivity|]).
    intros opt' Hopt. injection Hopt as <-.
    split; [reflexivity|]. split; [exact Hshown | reflexivity].
  - split; [|do 4 (split; [reflexivity|]); intros opt' Hopt; discriminate].
    unfold getSelectedShippingPrice.
    cbn [selectedShippingOption shippingOptions]. rewrite E.
    destruct (String.eqb optionId "" ||
              Nat.eqb (List.length (shippingOptions page)) 0)%bool;
      reflexivity.
Qed.

Lemma shipping_shown_is_shipping_charged_witness :
  let s := updateShipping 5.99 (addToCart elsa fresh) in
  let after := handleShippingOptionChange "canada-wide" cart_page s in
  getSelectedShippingPrice (fst after) (snd after) = 12.99%Q /\
  shipping (snd after) = 12.99%Q /\
  snd after = updateShipping 12.99 s.
Proof.
  intros s after.
  pose proof (shipping_shown_is_shipping_charged "canada-wide" cart_page s)
    as H.
  fold after in H. destruct after as [page' s'] eqn:E.
  destruct H as (_ & _ & _ & _ & _ & H).
  destruct (H canada_wide) as (Hcharged & Hshown & Hstore);
    [reflexivity|].
  cbn [fst snd]. split; [exact Hshown|]. split; [exact Hcharged|].
  exact Hstore.
Defined.

Lemma minus_guard (item : LineItem) :
  minus_disabled item = (quantity item - 1 <? 1).
Proof.
  unfold minus_disabled.
  destruct (Z.leb_spec (quantity item) 1), (Z.ltb_spec (quantity item - 1) 1);
    try reflexivity; lia.
Qed.

Lemma with_quantity_back (item : LineItem) (q : Z) :
  with_quantity (with_quantity item q) (quantity item) = item.
Proof. destruct item; reflexivity. Qed.

(** X16. The [-] button is disabled exactly where [updateQuantity] would
    ignore its click, and a click on it then changes nothing; enabled, it
    lowers the count by 1.  [+] raises the count by 1, and [-] after [+]
    gives back the store. *)
Theorem quantity_buttons :
  forall (item : LineItem) (s : Store),
    (minus_disabled item = true -> minus_onClick item s = s)
    /\
    (settled s -> NoDup (ids (cartItems s)) -> In item (cartItems s) ->
     (minus_disabled item = false ->
      cartCount (minus_onClick item s) = cartCount s - 1) /\
     (1 <= quantity item ->
      cartCount (plus_onClick item s) = cartCount s + 1 /\
      minus_onClick (with_quantity item (quantity item + 1))
                    (plus_onClick item s) = s)).
Proof.
  intros item s. split.
  - intro Hd. rewrite minus_guard in Hd.
    unfold minus_onClick, updateQuantity. rewrite Hd. reflexivity.
  - intros Hs Hdup Hin. split.
    + intro Hd. unfold minus_disabled in Hd. apply Z.leb_gt in Hd.
      destruct (updateQuantity_count (id item)
                  (quantity item - 1) s item Hs Hdup Hin eq_refl) as [H _];
        [lia|].
      unfold minus_onClick. rewrite H. lia.
    + intro Hq.
      destruct (updateQuantity_count (id item)
                  (quantity item + 1) s item Hs Hdup Hin eq_refl) as [H _];
        [lia|].
      split; [unfold plus_onClick; rewrite H; lia|].
      unfold minus_onClick, plus_onClick, updateQuantity.
      cbn [id quantity with_quantity].
      replace (quantity item + 1 - 1) with (quantity item) by lia.
      destruct (Z.ltb_spec (quantity item + 1) 1); [lia|].
      destruct (Z.ltb_spec (quantity item) 1); [lia|].
      rewrite update_update. apply update_same; [exact Hs|].
      destruct (unique_split _ _ _ Hdup Hin eq_refl)
        as (l1 & l2 & -> & Hl1 & Hl2).
      unfold updateQuantity_items.
      rewrite (map_if_around (id item)
                 (fun it => with_quantity it (quantity item + 1)))
        by (assumption || reflexivity).
      rewrite (map_if_around (id item)
                 (fun it => with_quantity it (quantity item)))
        by (assumption || reflexivity).
      rewrite with_quantity_back. reflexivity.
Qed.

Lemma quantity_buttons_witness :
  let s := addToCart elsa fresh in
  minus_onClick (new_item elsa) s = s /\
  minus_onClick (with_quantity (new_item elsa) 2)
                (plus_onClick (new_item elsa) s) = s.
Proof.
  intro s.
  destruct (quantity_buttons (new_item elsa) s) as [Hoff Hon].
  split; [apply Hoff; reflexivity|].
  destruct Hon as [_ Hplus].
  - apply update_settled.
  - repeat constructor. intros [].
  - left; reflexivity.
  - apply Hplus. simpl. lia.
Defined.

Lemma premium_fold_some (unit : Q) (items : list LineItem) (a : Q) :
  (0 < unit)%Q ->
  Forall (fun item => 1 <= quantity item) items ->
  existsb premiumPackaging items = true ->
  (a < fold_left
         (fun total item =>
            if premiumPackaging item
            then total + unit * inject_Z (quantity item) else total)
         items a)%Q.
Proof.
  intros Hunit Hq. revert a.
  induction Hq as [|item items Hitem Hrest IH]; intros a H; simpl in *.
  - discriminate H.
  - destruct (premiumPackaging item).
    + eapply Qlt_le_trans; [|apply premium_fold_nonneg].
      * assert (0 < unit * inject_Z (quantity item))%Q.
        { apply Qmult_lt_0_compat; [exact Hunit|].
          unfold Qlt; simpl. lia. }
        lra.
      * apply Qlt_le_weak. exact Hunit.
      * eapply Forall_impl; [|exact Hrest]. simpl. intros; lia.
    + apply IH. exact H.
Qed.

(** X17. When the summary hides the premium packaging row the premium
    packaging total is 0 and the total has no such part; when it shows the
    row, with a positive unit price and quantities of at least 1, the
    premium packaging total is positive. *)
Theorem premium_row_shown_when_charged :
  forall s : Store,
    (showsPremiumRow s = false ->
     calculatePremiumPackagingTotal s = 0%Q /\
     calculateTotal s
     = (cartSubtotal s + shipping s + 0 + getTaxAmount s)%Q)
    /\
    (showsPremiumRow s = true ->
     (0 < premiumPackPrice s)%Q ->
     Forall (fun item => 1 <= quantity item) (cartItems s) ->
     (0 < calculatePremiumPackagingTotal s)%Q).
Proof.
  intro s. unfold showsPremiumRow. split.
  - intro H.
    assert (Hz : calculatePremiumPackagingTotal s = 0%Q).
    { unfold calculatePremiumPackagingTotal. apply premium_fold_none.
      exact H. }
    split; [exact Hz|]. unfold calculateTotal. cbv zeta. rewrite Hz.
    reflexivity.
  - intros H Hunit Hq. unfold calculatePremiumPackagingTotal.
    apply premium_fold_some; assumption.
Qed.

Lemma premium_row_shown_when_charged_witness :
  calculatePremiumPackagingTotal (addToCart elsa fresh) = 0%Q /\
  (0 < calculatePremiumPackagingTotal
         (togglePremiumPackaging "card-1" (addToCart elsa fresh)))%Q.
Proof.
  split.
  - destruct (premium_row_shown_when_charged (addToCart elsa fresh))
      as [H _].
    apply H. reflexivity.
  - destruct (premium_row_shown_when_charged
                (togglePremiumPackaging "card-1" (addToCart elsa fresh)))
      as [_ H].
    apply H.
    + reflexivity.
    + vm_compute. reflexivity.
    + repeat constructor. simpl. lia.
Defined.

(** ** The card grid *)
(** X18. For a card that is not in the cart, the price its [CardItem] shows
    is the price of the line item that [handleAddToCart] appends, and the
    amount the subtotal rises by. *)
Theorem shown_price_is_charged :
  forall (cardData : Card) (s : Store),
    (forall item, In item (cartItems s) -> id item <> _id cardData) ->
    (exists item,
        cartItems (handleAddToCart cardData s) = cartItems s ++ [item] /\
        price item = shownPrice cardData) /\
    (settled s ->
     (cartSubtotal (handleAddToCart cardData s)
      == cartSubtotal s + shownPrice cardData)%Q).
Proof.
  intros cardData s Hout. unfold handleAddToCart, addToCart.
  rewrite cartItems_update. unfold addToCart_items.
  rewrite (absent_find _ _ Hout). split.
  - exists (new_item cardData). split; reflexivity.
  - intros (_ & Hsub & _). rewrite Hsub. unfold update. simpl.
    unfold addToCart_items. rewrite (absent_find _ _ Hout).
    rewrite subtotal_of_app. unfold subtotal_of at 2, shownPrice. simpl.
    ring.
Qed.

Lemma shown_price_is_charged_witness :
  (cartSubtotal (handleAddToCart promo fresh) == 0 + 3.99)%Q.
Proof.
  destruct (shown_price_is_charged promo fresh) as [_ H].
  - intros item [].
  - apply H. apply saveEffect_settled.
Defined.

Local Open Scope nat_scope.

Lemma firstn_add (A : Type) (a b : nat) (l : list A) :
  firstn (a + b) l = firstn a l ++ firstn b (skipn a l).
Proof.
  revert l; induction a as [|a IH]; intro l; [reflexivity|].
  destruct l as [|x l]; simpl.
  - rewrite firstn_nil. reflexivity.
  - rewrite IH. reflexivity.
Qed.

Lemma currentCards_chunk (A : Type) (l : list A) (k n : nat) :
  currentCards l (S k) n = firstn n (skipn (k * n) l).
Proof.
  unfold currentCards, slice, indexOfFirstCard, indexOfLastCard.
  replace (S k * n - n) with (k * n) by (simpl; lia).
  replace (S k * n - k * n) with n by (simpl; lia).
  reflexivity.
Qed.

Lemma pages_prefix (A : Type) (l : list A) (n k : nat) :
  List.concat (map (fun p => currentCards l p n) (seq 1 k)) = firstn (k * n) l.
Proof.
  induction k as [|k IH]; [reflexivity|].
  rewrite seq_S, map_app, concat_app, IH. simpl map. simpl List.concat.
  rewrite app_nil_r, currentCards_chunk.
  replace (S k * n) with (k * n + n) by (simpl; lia).
  symmetry. apply firstn_add.
Qed.

Lemma ceil_div_spec (a b k : nat) :
  0 < b -> (ceil_div a b <= k <-> a <= k * b).
Proof.
  intro Hb. unfold ceil_div.
  pose proof (Nat.div_mod_eq a b) as Hdm.
  pose proof (Nat.mod_upper_bound a b ltac:(lia)) as Hm.
  destruct (Nat.eqb_spec (a mod b) 0) as [E|E]; split; intro H; nia.
Qed.

(** X19. The pages 1 to [totalPages], one after the other, are the filtered
    cards: every card is on exactly one page, in order. *)
Theorem pages_cover_cards :
  forall (A : Type) (filteredCards : list A) (cardsPerPage : nat),
    0 < cardsPerPage ->
    List.concat (map (fun page => currentCards filteredCards page cardsPerPage)
                (seq 1 (totalPages filteredCards cardsPerPage)))
    = filteredCards.
Proof.
  intros A l n Hn. rewrite pages_prefix. apply firstn_all2.
  apply (ceil_div_spec (List.length l) n); [exact Hn | apply le_n].
Qed.

Lemma pages_cover_cards_witness :
  List.concat (map (fun page => currentCards [1; 2; 3; 4; 5; 6; 7; 8; 9; 10] page 8)
              (seq 1 (totalPages [1; 2; 3; 4; 5; 6; 7; 8; 9; 10] 8)))
  = [1; 2; 3; 4; 5; 6; 7; 8; 9; 10].
Proof. apply (pages_cover_cards nat). lia. Defined.




(** X21. [handleNextPage] and [handlePrevPage] keep the page between 1 and
    the number of pages; at the last page the one, at the first page the
    other changes nothing, and elsewhere they undo each other. *)
Theorem page_turns_stay_in_range :
  forall currentPage pages : nat,
    1 <= currentPage <= pages ->
    (1 <= handleNextPage currentPage pages <= pages) /\
    (1 <= handlePrevPage currentPage <= pages) /\
    (currentPage < pages ->
     handleNextPage currentPage pages = currentPage + 1 /\
     handlePrevPage (handleNextPage currentPage pages) = currentPage) /\
    (currentPage = pages -> handleNextPage currentPage pages = currentPage) /\
    (currentPage = 1 -> handlePrevPage currentPage = currentPage) /\
    (1 < currentPage ->
     handleNextPage (handlePrevPage currentPage) pages = currentPage).
Proof.
  intros p t Hp. unfold handleNextPage, handlePrevPage.
  repeat split; intros;
    repeat match goal with
           | |- context [Nat.ltb ?a ?b] => destruct (Nat.ltb_spec a b)
           end; lia.
Qed.

Lemma page_turns_stay_in_range_witness :
  handleNextPage 2 2 = 2 /\ handlePrevPage 1 = 1 /\
  handlePrevPage (handleNextPage 1 2) = 1.
Proof.
  destruct (page_turns_stay_in_range 2 2) as (_ & _ & _ & H1 & _); [lia|].
  destruct (page_turns_stay_in_range 1 2) as (_ & _ & H2 & _ & H3 & _);
    [lia|].
  split; [apply H1; reflexivity|]. split; [apply H3; reflexivity|].
  apply H2. lia.
Defined.

(** ** Filters *)
Lemma filter_filter (A : Type) (f g : A -> bool) (l : list A) :
  filter g (filter f l) = filter (fun x => f x && g x) l.
Proof.
  induction l as [|x l IH]; simpl; [reflexivity|].
  destruct (f x); simpl; [destruct (g x)|]; rewrite IH; reflexivity.
Qed.

Lemma filter_true (A : Type) (l : list A) : filter (fun _ => true) l = l.
Proof. induction l as [|x l IH]; simpl; [|rewrite IH]; reflexivity. Qed.

Lemma applyFilters_passes (Number : string -> option Q)
  (cards : list CatalogCard) (a b c : string) :
  applyFilters Number cards a b c = filter (passes Number a b c) cards.
Proof.
  unfold applyFilters, passes.
  rewrite <- (filter_true _ cards) at 1.
  destruct (String.eqb a ""), (String.eqb b ""), (String.eqb c "");
    rewrite ?filter_filter; apply filter_ext; intro x; simpl;
    destruct (matchesSet Number a x), (is_text b (Rarity x)),
      (is_text c (Color x)); reflexivity.
Qed.

(** X22. The filter effect shows the cards, in their order, that pass every
    filter that is set: the three successive filters are one filter by
    their conjunction.  With no filter set all cards are shown, and
    filtering the shown cards again changes nothing. *)
Theorem filters_select :
  forall (Number : string -> option Q) (cards : list CatalogCard)
         (selectedSet selectedRarity selectedColor : string),
    let shown :=
      applyFilters Number cards selectedSet selectedRarity selectedColor in
    (forall c,
        In c shown <->
        In c cards /\
        (selectedSet = "" \/ matchesSet Number selectedSet c = true) /\
        (selectedRarity = "" \/ Rarity c = Some selectedRarity) /\
        (selectedColor = "" \/ Color c = Some selectedColor))
    /\ shown
       = filter (passes Number selectedSet selectedRarity selectedColor)
                cards
    /\ (List.length shown <= List.length cards)%nat
    /\ applyFilters Number cards "" "" "" = cards
    /\ applyFilters Number shown selectedSet selectedRarity selectedColor
       = shown.
Proof.
  intros Number cards a b c shown. unfold shown.
  rewrite !applyFilters_passes.
  assert (Htext : forall sel v, is_text sel v = true <-> v = Some sel).
  { intros sel [v|]; simpl; split; try discriminate.
    - intro E. apply String.eqb_eq in E. subst. reflexivity.
    - intro E. injection E as ->. apply String.eqb_refl. }
  split; [|split; [|split; [|split]]].
  - intro x. rewrite filter_In. unfold passes.
    rewrite !andb_true_iff, !orb_true_iff, !String.eqb_eq, !Htext. tauto.
  - reflexivity.
  - apply filter_length_le.
  - apply filter_true.
  - rewrite filter_filter. apply filter_ext. intro x.
    destruct (passes Number a b c x); reflexivity.
Qed.

(** ** The choices the filters offer *)
Lemma unique_In (values seen : list string) (v : string) :
  In v (unique seen values) <-> In v values /\ ~ In v seen.
Proof.
  revert seen; induction values as [|x values IH]; intro seen; simpl.
  - tauto.
  - destruct (mem x seen) eqn:E.
    + apply mem_In in E. rewrite IH. split.
      * intros [H1 H2]. tauto.
      * intros [[<- | H1] H2]; [contradiction | tauto].
    + assert (Hx : ~ In x seen).
      { intro H. apply mem_In in H. congruence. }
      simpl. rewrite IH. simpl. split.
      * intros [<- | [H1 H2]]; tauto.
      * intros [[<- | H1] H2]; [tauto|].
        destruct (string_dec x v) as [<- | Hne]; [tauto|]. right. tauto.
Qed.

Lemma unique_NoDup (values seen : list string) : NoDup (unique seen values).
Proof.
  revert seen; induction values as [|x values IH]; intro seen; simpl.
  - constructor.
  - destruct (mem x seen); [apply IH|].
    constructor; [|apply IH].
    rewrite unique_In. simpl. tauto.
Qed.

Lemma truthy_texts_In (values : list (option string)) (v : string) :
  In v (truthy_texts values) <-> v <> "" /\ In (Some v) values.
Proof.
  unfold truthy_texts. rewrite in_flat_map. split.
  - intros ([x|] & Hin & Hv); [|destruct Hv].
    destruct (String.eqb_spec x "") as [E|E]; [destruct Hv|].
    destruct Hv as [<- | []]. split; assumption.
  - intros [Hne Hin]. exists (Some v). split; [exact Hin|].
    destruct (String.eqb_spec v ""); [contradiction | left; reflexivity].
Qed.

(** X23. The rarities and colours offered hold no duplicate and no empty
    text; a text is offered exactly when some card carries it; choosing an
    offered rarity or colour alone shows at least one card. *)
Theorem filter_choices :
  forall (Number : string -> option Q) (data : list CatalogCard),
    NoDup (uniqueRarities data) /\ NoDup (uniqueColors data) /\
    (forall r,
        In r (uniqueRarities data) <->
        r <> "" /\ exists c, In c data /\ Rarity c = Some r) /\
    (forall k,
        In k (uniqueColors data) <->
        k <> "" /\ exists c, In c data /\ Color c = Some k) /\
    (forall r,
        In r (uniqueRarities data) -> applyFilters Number data "" r "" <> []) /\
    (forall k,
        In k (uniqueColors data) -> applyFilters Number data "" "" k <> []).
Proof.
  intros Number data.
  assert (Hr : forall r,
             In r (uniqueRarities data) <->
             r <> "" /\ exists c, In c data /\ Rarity c = Some r).
  { intro r. unfold uniqueRarities.
    rewrite unique_In, truthy_texts_In, in_map_iff. simpl. split.
    - intros [[Hne (c & E & Hin)] _]. split; [exact Hne|]. eauto.
    - intros [Hne (c & Hin & E)]. split; [|tauto]. split; [exact Hne|]. eauto. }
  assert (Hk : forall k,
             In k (uniqueColors data) <->
             k <> "" /\ exists c, In c data /\ Color c = Some k).
  { intro k. unfold uniqueColors.
    rewrite unique_In, truthy_texts_In, in_map_iff. simpl. split.
    - intros [[Hne (c & E & Hin)] _]. split; [exact Hne|]. eauto.
    - intros [Hne (c & Hin & E)]. split; [|tauto]. split; [exact Hne|]. eauto. }
  split; [apply unique_NoDup|]. split; [apply unique_NoDup|].
  split; [exact Hr|]. split; [exact Hk|]. split.
  - intros r Hin Hnil. apply Hr in Hin. destruct Hin as [Hne (c & Hc & E)].
    assert (Hshown : In c (applyFilters Number data "" r "")).
    { rewrite applyFilters_passes. apply filter_In. split; [exact Hc|].
      unfold passes. rewrite E. simpl. rewrite String.eqb_refl.
      rewrite orb_true_r. reflexivity. }
    rewrite Hnil in Hshown. destruct Hshown.
  - intros k Hin Hnil. apply Hk in Hin. destruct Hin as [Hne (c & Hc & E)].
    assert (Hshown : In c (applyFilters Number data "" "" k)).
    { rewrite applyFilters_passes. apply filter_In. split; [exact Hc|].
      unfold passes. rewrite E. simpl. rewrite String.eqb_refl.
      rewrite orb_true_r. reflexivity. }
    rewrite Hnil in Hshown. destruct Hshown.
Qed.

Lemma filter_choices_witness :
  applyFilters (fun _ => None) [elsa_listing; stitch_listing] "" "Common" ""
  <> [].
Proof.
  destruct (filter_choices (fun _ => None) [elsa_listing; stitch_listing])
    as (_ & _ & _ & _ & H & _).
  apply H. vm_compute. right; left; reflexivity.
Defined.
